(** * Prerequisite graphs of the Five College course catalogs

    A shallow embedding of [5CollegeGraph/FiveCollegeScraper.py] and of the
    tokenizer block of [NetworkViz/PrereqsHierarchy/coursescraper.py],
    followed by the properties of the pipeline

      CourseRecord store -> get_prereqs -> make_course_graph
                         -> make_subgraph -> get_sugiyama_layout -> make_json.

    Python strings are modelled as [string], a sequence of characters.
    [str.upper], [str.lower] and [str.isnumeric] are those of the Python
    run time: they are the fields of the class [StrOps], and every property
    is proved for all of them.  The order in which igraph lists the edges of
    an induced subgraph is the field of the class [EdgeOrder].  Python
    dictionaries are association lists in insertion order.  Operations that
    may raise return [option]. *)

From Stdlib Require Import List String Ascii Bool Arith ZArith QArith Lia.
From Stdlib Require Import Numbers.DecimalString Numbers.DecimalPos.
From Stdlib Require Import Numbers.DecimalZ Sorting.Permutation.
Import ListNotations.
Close Scope Q_scope.
Open Scope nat_scope.
Open Scope string_scope.

(** ** Python string primitives *)

Module PyStr.

(** [x in l] for a list of strings. *)
Definition mem (x : string) (l : list string) : bool :=
  existsb (String.eqb x) l.

(** Upper case of the letters a-z, for [ascii_upper]. *)
Definition upper_char (c : ascii) : ascii :=
  let n := nat_of_ascii c in
  if ((97 <=? n) && (n <=? 122))%nat then ascii_of_nat (n - 32) else c.

(** Lower case of the letters A-Z, for [ascii_lower]. *)
Definition lower_char (c : ascii) : ascii :=
  let n := nat_of_ascii c in
  if ((65 <=? n) && (n <=? 90))%nat then ascii_of_nat (n + 32) else c.

Fixpoint map_chars (f : ascii -> ascii) (s : string) : string :=
  match s with
  | EmptyString => EmptyString
  | String c r => String (f c) (map_chars f r)
  end.

(** What [str.upper] and [str.lower] do to a string of ASCII
    characters. *)
Definition ascii_upper : string -> string := map_chars upper_char.
Definition ascii_lower : string -> string := map_chars lower_char.

(** The digits 0-9, for [ascii_isnumeric]. *)
Definition is_digit (c : ascii) : bool :=
  let n := nat_of_ascii c in ((48 <=? n) && (n <=? 57))%nat.

Fixpoint all_chars (p : ascii -> bool) (s : string) : bool :=
  match s with
  | EmptyString => true
  | String c r => p c && all_chars p r
  end.

(** What [str.isnumeric] does to a string of ASCII characters: false on the
    empty string, otherwise every character is a digit. *)
Definition ascii_isnumeric (s : string) : bool :=
  match s with
  | EmptyString => false
  | _ => all_chars is_digit s
  end.

(** Splitting at every character that satisfies [sep]; this is what
    [str.split(c)] and [re.split] with an alternation of single characters
    do: n separators give n+1 pieces, empty pieces included. *)
Fixpoint split_on (sep : ascii -> bool) (s : string) : list string :=
  match s with
  | EmptyString => [EmptyString]
  | String c r =>
      if sep c then EmptyString :: split_on sep r
      else match split_on sep r with
           | [] => [String c EmptyString]
           | p :: ps => String c p :: ps
           end
  end.

Definition is_char (a c : ascii) : bool := Ascii.eqb a c.

(** [s.split('-')] *)
Definition split_dash : string -> list string := split_on (is_char "-").
(** [s.split('/')] *)
Definition split_slash : string -> list string := split_on (is_char "/").

Definition newline : ascii := ascii_of_nat 10.
Definition nbsp : ascii := ascii_of_nat 160.

(** [re.split('\n|\.', s)] *)
Definition split_sentences : string -> list string :=
  split_on (fun c => is_char newline c || is_char "." c).

(** [re.split(' |-|,|/|;|\.', s)] *)
Definition split_words : string -> list string :=
  split_on (fun c => is_char " " c || is_char "-" c || is_char "," c
                     || is_char "/" c || is_char ";" c || is_char "." c).

(** [s.replace(u'\xa0', u' ')] *)
Definition replace_nbsp : string -> string :=
  map_chars (fun c => if is_char nbsp c then " "%char else c).

(** [a in s] for strings: substring test. *)
Fixpoint is_substring (a s : string) : bool :=
  String.prefix a s ||
  match s with
  | EmptyString => false
  | String _ r => is_substring a r
  end.

(** Truth value of a string: non-empty. *)
Definition truthy (s : string) : bool :=
  match s with EmptyString => false | _ => true end.

(** [str(n)] for an integer. *)
Definition str_int (z : Z) : string := NilZero.string_of_int (Z.to_int z).
Definition str_nat (n : nat) : string := str_int (Z.of_nat n).

(** [s[0:n]] *)
Fixpoint take (n : nat) (s : string) : string :=
  match n, s with
  | S m, String c r => String c (take m r)
  | _, _ => EmptyString
  end.

(** [list(s)]: the characters of a string, each a one-character string. *)
Fixpoint chars (s : string) : list string :=
  match s with
  | EmptyString => []
  | String c r => String c EmptyString :: chars r
  end.

End PyStr.
Import PyStr.

(** The string methods of the Python run time that depend on the Unicode
    tables: [s.upper()], [s.lower()] and [s.isnumeric()]. *)
Class StrOps := {
  upper : string -> string;
  lower : string -> string;
  isnumeric : string -> bool
}.

(** The three methods on ASCII text, for running the functions on course
    codes and descriptions written in ASCII. *)
#[global] Instance ascii_ops : StrOps := {|
  upper := ascii_upper;
  lower := ascii_lower;
  isnumeric := ascii_isnumeric
|}.

(** ** The CourseRecord store *)

(** The details of one course, as filled in by
    [get_institution_course_urls] and [get_course_description]. *)
Record course := {
  title : string;
  url : string;
  description : string;
  prereqs : list string
}.

(** [institution_course_codes[institution]]: code -> details. *)
Definition catalog := list (string * course).

Definition keys {V} (d : list (string * V)) : list string := map fst d.

(** [d[k]] *)
Fixpoint lookup {V} (k : string) (d : list (string * V)) : option V :=
  match d with
  | [] => None
  | (k', v) :: r => if String.eqb k k' then Some v else lookup k r
  end.

(** [d[k] = v]: overwrite in place, or append. *)
Fixpoint dict_set {V} (k : string) (v : V) (d : list (string * V))
  : list (string * V) :=
  match d with
  | [] => [(k, v)]
  | (k', v') :: r =>
      if String.eqb k k' then (k, v) :: r else (k', v') :: dict_set k v r
  end.

(** An edge tuple (code of the course required, code of the course
    requiring). *)
Definition edge := (string * string)%type.

(** ** get_course_description: the [prereqs] field *)

(** ['requisite' or 'or consent of professor' in s]: Python's [or] yields its
    first operand when that is truthy. *)
Definition requisite_test (s : string) : bool :=
  if truthy "requisite" then true
  else is_substring "or consent of professor" s.

(** The loop [for s in tmp] runs over the characters of the joined text. *)
Definition description_prereqs (tmp : string) : list string :=
  filter requisite_test (chars tmp).

(** ** get_prereqs *)

(** [i.split('-')[0]] *)
Definition dept_of (code : string) : string :=
  match split_dash code with
  | d :: _ => d
  | [] => code
  end.

(** [i.split('-')[1]]; IndexError without a separator. *)
Definition num_of (code : string) : option string :=
  nth_error (split_dash code) 1.

(** [s[0].isnumeric()]; IndexError on the empty string. *)
Definition first_isnumeric {ops : StrOps} (s : string) : option bool :=
  match s with
  | EmptyString => None
  | String c _ => Some (isnumeric (String c EmptyString))
  end.

(** [[i.split('-')[0].upper() for i in catalog_dict.keys()]] *)
Definition depts_of {ops : StrOps} (ks : list string) : list string :=
  map (fun i => upper (dept_of i)) ks.

(** [[i.split('-')[1].upper() for i in catalog_dict.keys()
      if i.split('-')[1][0].isnumeric()]] *)
Fixpoint nums_of {ops : StrOps} (ks : list string) : option (list string) :=
  match ks with
  | [] => Some []
  | i :: r =>
      match num_of i with
      | None => None
      | Some n =>
          match first_isnumeric n with
          | None => None
          | Some b =>
              match nums_of r with
              | None => None
              | Some l => Some (if b then upper n :: l else l)
              end
          end
      end
  end.

(** The test of line 205 on a sentence [i]. *)
Definition sentence_test {ops : StrOps} (i : string) : bool :=
  if truthy "requisite" then true
  else is_substring "or consent of professor" (lower i).

(** Lines 200-206 for a non-empty description: accumulate [req_line]. *)
Definition req_line_step {ops : StrOps} (req_line i : string) : string :=
  if sentence_test i then req_line ++ i ++ " " else req_line.

Definition req_line_of {ops : StrOps} (desc : string) : string :=
  match desc with
  | EmptyString => ""
  | _ => fold_left req_line_step (split_sentences (replace_nbsp desc)) ""
  end.

(** Lines 211-215: one word of the scan.  The state is the department
    cursor and the list [prereqs] appended to. *)
Definition scan_step {ops : StrOps} (depts nums : list string) (k : string)
  (st : string * list edge) (word : string) : string * list edge :=
  let '(current_dept, acc) := st in
  let current_dept := if mem (upper word) depts then word else current_dept in
  let acc := if mem word nums
             then (acc ++ [((upper current_dept ++ "-" ++ word)%string, k)])%list
             else acc in
  (current_dept, acc).

Definition scan_words {ops : StrOps} (depts nums : list string)
  (k : string)
  (own : string) (words : list string) (acc : list edge) : list edge :=
  snd (fold_left (scan_step depts nums k) words (own, acc)).

(** Lines 198-215: the body of the loop over the keys. *)
Definition course_step {ops : StrOps} (depts nums : list string)
  (c : catalog)
  (acc : list edge) (k : string) : list edge :=
  match lookup k c with
  | None => acc
  | Some details =>
      match description details with
      | EmptyString => acc
      | desc =>
          scan_words depts nums k (dept_of k)
            (split_words (req_line_of desc)) acc
      end
  end.

Definition get_prereqs {ops : StrOps} (c : catalog) : option (list edge) :=
  match nums_of (keys c) with
  | None => None
  | Some nums =>
      Some (fold_left (course_step (depts_of (keys c)) nums c) (keys c) [])
  end.

(** A store for trying the functions out. *)
Definition mk (desc : string) : course :=
  {| title := "t"; url := "u"; description := desc;
     prereqs := description_prereqs desc |}.


(** ** The tokenizer block of coursescraper.py (Amherst catalog) *)

Module Amherst.

(** An entry of [courseDetails]. *)
Record details := {
  a_url : string;
  a_depts : list string;
  rLine : list string
}.

(** Lines 163-168: one word.  The state is [currentDept] and
    [reqdCourses]. *)
Definition word_step {ops : StrOps} (depts : list string)
  (st : string * list string) (word : string) : string * list string :=
  let '(currentDept, reqdCourses) := st in
  let currentDept := if mem word depts then word else currentDept in
  let reqdCourses :=
    if isnumeric word && (String.length word =? 3)%nat
    then (reqdCourses ++ [(currentDept ++ "-" ++ word)%string])%list
    else reqdCourses in
  (currentDept, reqdCourses).

Definition scan_rline {ops : StrOps} (depts : list string) (own : string)
  (words : list string) : list string :=
  snd (fold_left (word_step depts) words (own, [])).

(** Lines 155-169 for one key; [depts] is the module-level variable last
    bound on line 144.  The outer [option] is the IndexError of
    [url.split('/')[5]]. *)
Definition key_step {ops : StrOps} (depts : list string)
  (acc : option (list (string * list string)))
  (kv : string * details) : option (list (string * list string)) :=
  match acc with
  | None => None
  | Some prereqs_dict =>
      match rLine (snd kv) with
      | [] => Some prereqs_dict
      | r :: _ =>
          match nth_error (split_slash (a_url (snd kv))) 5 with
          | None => None
          | Some currentDept =>
              Some (dict_set (fst kv)
                      (scan_rline depts currentDept
                         (split_words (replace_nbsp r)))
                      prereqs_dict)
          end
      end
  end.

Definition prereqs_block {ops : StrOps} (depts : list string)
  (courseDetails : list (string * details))
  : option (list (string * list string)) :=
  fold_left (key_step depts) courseDetails (Some []).

End Amherst.

(** ** test_prereqs *)

(** [itertools.chain] applied to the unpacked edge list: the endpoints of
    every edge, in order. *)
Definition chain (es : list edge) : list string :=
  flat_map (fun e => [fst e; snd e]) es.

(** The body of the loop for one key: whether the course is printed. *)
Definition reported (es : list edge) (c : catalog) (k : string) : bool :=
  negb (mem k (chain es)) &&
  match lookup k c with
  | Some d => (0 <? List.length (prereqs d))%nat
  | None => false
  end.

(** What is printed: the reported codes with their [prereqs] field, then
    the counter. *)
Definition test_prereqs (es : list edge) (c : catalog)
  : list (string * list string) * nat :=
  let ks := filter (reported es c) (keys c) in
  (map (fun k => (k, match lookup k c with
                     | Some d => prereqs d
                     | None => []
                     end)) ks,
   List.length ks).

(** ** The graph object *)

(** A directed igraph graph with the vertex attribute [name]: vertices are
    0 .. vcount-1, [vs_name] lists their names, [es] their edges in
    insertion order. *)
Record graph := {
  vs_name : list string;
  es : list (nat * nat)
}.

Definition vcount (g : graph) : nat := List.length (vs_name g).

(** The vertex a name refers to: the first one that carries it. *)
Fixpoint index_of (x : string) (l : list string) : option nat :=
  match l with
  | [] => None
  | y :: r => if String.eqb x y then Some 0
              else option_map S (index_of x r)
  end.

(** [g.add_edges(list of name pairs)]; ValueError on an unknown name. *)
Fixpoint resolve_edges (names : list string) (l : list edge)
  : option (list (nat * nat)) :=
  match l with
  | [] => Some []
  | (a, b) :: r =>
      match index_of a names, index_of b names, resolve_edges names r with
      | Some i, Some j, Some r' => Some ((i, j) :: r')
      | _, _, _ => None
      end
  end.

(** ** make_course_graph *)

(** [[c for c in all_courses if c not in course_details.keys()]] *)
Definition extra_courses (c : catalog) (l : list edge) : list string :=
  filter (fun x => negb (mem x (keys c))) (chain l).

Definition names_of_courses (c : catalog) (l : list edge) : list string :=
  (keys c ++ extra_courses c l)%list.

Definition make_course_graph (c : catalog) (l : list edge) : option graph :=
  let names := names_of_courses c l in
  match resolve_edges names l with
  | Some e => Some {| vs_name := names; es := e |}
  | None => None
  end.

(** ** make_subgraph *)

Definition memn (x : nat) (l : list nat) : bool := existsb (Nat.eqb x) l.

(** [g.neighborhood(v)] with order 1 and mode "all": the vertex, then its
    in- and out-neighbours.  Repetitions are left in; line 288 puts the
    result through [set]. *)
Definition neighborhood (g : graph) (v : nat) : list nat :=
  v :: flat_map (fun e => ((if (fst e =? v)%nat then [snd e] else []) ++
                           (if (snd e =? v)%nat then [fst e] else []))%list)
         (es g).

(** Position of a vertex among the vertices kept. *)
Fixpoint position (x : nat) (l : list nat) : option nat :=
  match l with
  | [] => None
  | y :: r => if (x =? y)%nat then Some 0 else option_map S (position x r)
  end.

(** The order in which igraph lists the edges of an induced subgraph.
    [list_edges g kept l] is the edge list of the subgraph of [g] on the
    vertices [kept], where [l] holds its edges, renumbered, in the order of
    [g]: igraph keeps that order or lists the edges anew, vertex by vertex,
    depending on the share of the vertices kept; either way it lists the
    same edges. *)
Class EdgeOrder := {
  list_edges : graph -> list nat -> list (nat * nat) -> list (nat * nat);
  list_edges_perm : forall g kept l, Permutation (list_edges g kept l) l
}.

(** The edges in the order of the graph they come from, for running the
    functions. *)
#[global] Instance insertion_order : EdgeOrder := {|
  list_edges := fun _ _ l => l;
  list_edges_perm := fun _ _ l => Permutation_refl l
|}.

(** [g.induced_subgraph(vids)]: the vertices listed are kept in the order of
    their ids, the edges between them renumbered and listed as igraph
    does. *)
Definition induced_subgraph {eo : EdgeOrder} (g : graph) (vids : list nat)
  : graph :=
  let kept := filter (fun i => memn i vids) (seq 0 (vcount g)) in
  {| vs_name := map (fun i => nth i (vs_name g) "") kept;
     es := list_edges g kept
             (flat_map (fun e =>
                match position (fst e) kept, position (snd e) kept with
                | Some a, Some b => [(a, b)]
                | _, _ => []
                end) (es g)) |}.

(** [enumerate(l)] *)
Definition enumerate {A} (l : list A) : list (nat * A) :=
  combine (seq 0 (List.length l)) l.

(** What [list(set(l))] may return: the elements of [l], each once, in an
    order the set chooses. *)
Definition set_listing (f : list nat -> list nat) : Prop :=
  forall l, NoDup (f l) /\ forall x, In x (f l) <-> In x l.

(** [make_subgraph]; [list_set] is [list(set(...))].  The second argument of
    the Python function is not used by it. *)
Definition make_subgraph {eo : EdgeOrder} (list_set : list nat -> list nat)
  (dept_string : string) (course_graph : graph) : graph :=
  let relevant_courses :=
    filter (fun i => String.eqb (dept_of (snd i)) dept_string)
           (enumerate (vs_name course_graph)) in
  let neighbors :=
    map (fun i => neighborhood course_graph (fst i)) relevant_courses in
  induced_subgraph course_graph (list_set (List.concat neighbors)).

(** ** get_sugiyama_layout *)

(** [layout_sugiyama] is igraph's; its rows are taken as given. *)
Definition get_sugiyama_layout (layout_sugiyama : graph -> list (Q * Q))
  (subgraph : graph) : list (Q * Q) :=
  firstn (vcount subgraph) (layout_sugiyama subgraph).

(** ** make_json *)

(** The values stored in the exported records. *)
#[local] Set Warnings "-register-all".
Inductive pyval :=
| VStr (s : string)
| VFloat (q : Q)
| VNode (i : nat) (name : string)
| VList (l : list string)
| VDict (d : list (string * pyval)).

(** An [OrderedDict] with string keys. *)
Definition odict := list (string * pyval).

(** Filling a fresh dictionary by successive assignments. *)
Definition odict_of (l : list (string * pyval)) : odict :=
  fold_left (fun d kv => dict_set (fst kv) (snd kv) d) l [].

Module Repr.

Definition hex_digit (n : nat) : ascii :=
  if (n <? 10)%nat then ascii_of_nat (48 + n) else ascii_of_nat (87 + n).

Definition printable (n : nat) : bool :=
  ((32 <=? n) && (n <=? 126) || (161 <=? n) && negb (n =? 173))%nat.

(** One character inside the quotes of [repr(s)]. *)
Definition escape (quote c : ascii) : string :=
  let n := nat_of_ascii c in
  if Ascii.eqb c "\" then "\\"
  else if Ascii.eqb c quote then String "\" (String quote "")
  else if (n =? 10)%nat then "\n"
  else if (n =? 13)%nat then "\r"
  else if (n =? 9)%nat then "\t"
  else if printable n then String c ""
  else String "\" (String "x" (String (hex_digit (n / 16))
                                 (String (hex_digit (n mod 16)) ""))).

Fixpoint has_char (a : ascii) (s : string) : bool :=
  match s with
  | EmptyString => false
  | String c r => Ascii.eqb a c || has_char a r
  end.

Fixpoint escape_all (quote : ascii) (s : string) : string :=
  match s with
  | EmptyString => ""
  | String c r => escape quote c ++ escape_all quote r
  end.

(** [repr(s)]: single quotes, unless the string has a single quote and no
    double quote. *)
Definition dquote : ascii := ascii_of_nat 34.

Definition repr (s : string) : string :=
  let quote := if has_char "'" s && negb (has_char dquote s)
               then dquote else "'"%char in
  String quote (escape_all quote s ++ String quote "").

End Repr.

(** [str(node)] for a pair [(i, name)] yielded by [enumerate]. *)
Definition str_node (i : nat) (name : string) : string :=
  "(" ++ str_nat i ++ ", " ++ Repr.repr name ++ ")".

(** [str(rgb)] for a triple of integers. *)
Definition str_rgb (c : Z * Z * Z) : string :=
  let '(r, g, b) := c in
  "(" ++ str_int r ++ ", " ++ str_int g ++ ", " ++ str_int b ++ ")".

(** The exported document. *)
Record data := {
  edges : list odict;
  nodes : list odict
}.

Definition bind {A B} (x : option A) (f : A -> option B) : option B :=
  match x with Some a => f a | None => None end.

Notation "x <- e ;; k" := (bind e (fun x => k))
  (at level 61, e at next level, right associativity).

Fixpoint traverse {A B} (f : A -> option B) (l : list A) : option (list B) :=
  match l with
  | [] => Some []
  | a :: r => b <- f a ;; bs <- traverse f r ;; Some (b :: bs)
  end.

Section Exporter.

(** The pseudo-random source: [rand n] is the n-th value drawn by
    [randint(0, 255)]. *)
Variable rand : nat -> Z.

(** [make_color], at the n-th draw: the value and the next draw. *)
Definition make_color (n : nat) : Z * nat := (rand n, S n).

(** [get_rgb], from the n-th draw onwards. *)
Definition get_rgb (n : nat) : (Z * Z * Z) * nat :=
  let '(r, n1) := make_color n in
  let '(g, n2) := make_color n1 in
  let '(b, n3) := make_color n2 in
  ((r, g, b), n3).

(** [{dept: get_rgb() for dept in unique_departments}] *)
Definition department_colors (n0 : nat) (unique_departments : list string)
  : list (string * (Z * Z * Z)) * nat :=
  fold_left (fun st dept =>
               let '(rgb, n') := get_rgb (snd st) in
               (dict_set dept rgb (fst st), n'))
            unique_departments ([], n0).

Variable sugiyama_layout : list (Q * Q).
Variable colors : list (string * (Z * Z * Z)).
Variable course_details : catalog.

(** Lines 365-402: the record of one node. *)
Definition node_output (node : nat * string) : option odict :=
  let '(i, name) := node in
  match lookup name course_details with
  | Some d =>
      xy <- nth_error sugiyama_layout i ;;
      rgb <- lookup (dept_of name) colors ;;
      Some (odict_of
        [("label", VNode i name);
         ("x", VFloat (fst xy));
         ("y", VFloat (snd xy));
         ("id", VStr (str_node i name));
         ("attributes", VDict (odict_of
            [("Title", VStr (title d));
             ("Description", VStr (description d));
             ("Department Code", VStr (take 4 name));
             ("Course Site",
               VStr ("<a href= '" ++ url d ++ "'> Course Site </a>"));
             ("Requisite", VList (prereqs d))]));
         ("color", VStr ("rgb" ++ str_rgb rgb));
         ("size", VFloat (10 # 1)%Q)])
  | None =>
      xy <- nth_error sugiyama_layout i ;;
      rgb <- lookup (dept_of name) colors ;;
      Some (odict_of
        [("label", VNode i name);
         ("x", VFloat (fst xy));
         ("y", VFloat (snd xy));
         ("id", VStr (str_node i name));
         ("attributes", VDict (odict_of
            [("Title", VNode i name);
             ("Description", VStr ("not offered in the" ++ " last 4 semesters"));
             ("Department Code", VStr (dept_of name));
             ("Course Site", VStr "");
             ("Requisite", VStr "")]));
         ("color", VStr ("rgb" ++ str_rgb rgb));
         ("size", VFloat (10 # 1)%Q)])
  end.

(** Lines 407-418: the record of one edge.  [last_node] is the variable
    [node_output] as the node loop left it; it is unbound when the loop
    did not run. *)
Definition edge_output (names : list string) (last_node : option odict)
  (e : nat * (nat * nat)) : option odict :=
  let '(j, (s, t)) := e in
  tname <- nth_error names t ;;
  rgb <- lookup (dept_of tname) colors ;;
  n <- last_node ;;
  Some (odict_of
    [("label", VStr "");
     ("source", VStr (str_nat s));
     ("target", VStr (str_nat t));
     ("id", VStr (str_int (Z.of_nat (List.length n) - 1 + 2 * Z.of_nat j)));
     ("attributes", VDict []);
     ("color", VStr ("rgb" ++ str_rgb rgb));
     ("size", VFloat (1 # 1)%Q)]).

End Exporter.

(** [make_json]: [list_set] is [list(set(...))] inside [make_subgraph],
    [layout_sugiyama] igraph's layout, [rand] and [n0] the random source and
    how far it has been drawn from. *)
Definition make_json {eo : EdgeOrder} (list_set : list nat -> list nat)
  (layout_sugiyama : graph -> list (Q * Q)) (rand : nat -> Z) (n0 : nat)
  (dept_string : string) (course_details : catalog)
  (complete_course_graph : graph) : option data :=
  let subgraph := make_subgraph list_set dept_string complete_course_graph in
  let sugiyama_layout := get_sugiyama_layout layout_sugiyama subgraph in
  let unique_departments := map dept_of (vs_name subgraph) in
  let colors := fst (department_colors rand n0 unique_departments) in
  ns <- traverse (node_output sugiyama_layout colors course_details)
                 (enumerate (vs_name subgraph)) ;;
  edgs <- traverse (edge_output colors (vs_name subgraph)
                      (List.last (map Some ns) None))
                   (enumerate (es subgraph)) ;;
  Some {| edges := edgs; nodes := ns |}.

(** ** Stand-ins for the library calls, for running the pipeline *)

(** A [list(set(...))] that keeps each element once. *)
Definition list_set_nodup : list nat -> list nat := nodup Nat.eq_dec.

(** A layout with one row per vertex. *)
Definition layout_row (g : graph) : list (Q * Q) :=
  map (fun i => (Z.of_nat i # 1, 0 # 1)%Q) (seq 0 (vcount g)).

(** A source of colour components. *)
Definition rand_mod (n : nat) : Z := Z.of_nat ((37 * n + 11) mod 256).

(** The whole pipeline for one department of one store. *)
Definition export_department {ops : StrOps} {eo : EdgeOrder}
  (dept_string : string) (c : catalog) : option data :=
  l <- get_prereqs c ;;
  g <- make_course_graph c l ;;
  make_json list_set_nodup layout_row rand_mod 0 dept_string c g.

Definition econ_store : catalog :=
  [("ECON-101", mk "");
   ("ECON-201", mk "Requisite: ECON 101");
   ("ECON-301", mk "Requisite: ECON 201")].

(** ** Notions used to state the properties *)

(** All the strings of a list, each followed by a space, in one string. *)
Definition spaced (l : list string) : string :=
  fold_right (fun s r => s ++ " " ++ r) "" l.

(** The department in force once the words [pre] have been read: the last
    of them that names a department, the course's own one otherwise. *)
Definition cursor_after (is_dept : string -> bool) (own : string)
  (pre : list string) : string :=
  match find is_dept (rev pre) with
  | Some d => d
  | None => own
  end.

(** What the word at position [n] of [ws] contributes to the output. *)
Definition emitted_at {A} (is_dept is_num : string -> bool)
  (code : string -> string -> A) (own : string) (ws : list string) (n : nat)
  : list A :=
  match nth_error ws n with
  | Some w =>
      if is_num w
      then [code (cursor_after is_dept own (firstn (S n) ws)) w]
      else []
  | None => []
  end.

Definition emitted {A} (is_dept is_num : string -> bool)
  (code : string -> string -> A) (own : string) (ws : list string) : list A :=
  flat_map (emitted_at is_dept is_num code own ws) (seq 0 (List.length ws)).

(** The shape shared by the two scanning loops. *)
Definition gen_step {A} (is_dept is_num : string -> bool)
  (code : string -> string -> A) (st : string * list A) (w : string)
  : string * list A :=
  let cur := if is_dept w then w else fst st in
  (cur, if is_num w then (snd st ++ [code cur w])%list else snd st).

(** The code emitted by get_prereqs for a cursor and a word, paired with
    the course [k] that requires it. *)
Definition edge_code {ops : StrOps} (k : string) (d w : string) : edge :=
  (upper d ++ "-" ++ w, k).

(** The code emitted by the Amherst block. *)
Definition amherst_code (d w : string) : string := d ++ "-" ++ w.

(** The emission tests of the two tokenizers: [word in nums], and
    [word.isnumeric() and len(word) == 3]. *)
Definition in_nums (nums : list string) (w : string) : bool := mem w nums.
Definition numeric3 {ops : StrOps} (w : string) : bool :=
  isnumeric w && (String.length w =? 3)%nat.

(** A string without the character "-". *)
Definition no_dash (s : string) : bool :=
  all_chars (fun c => negb (is_char "-" c)) s.


(** A store in which two courses name the same course that is not
    offered. *)
Definition repeat_store : catalog :=
  [("MATH-999", mk "");
   ("ECON-301", mk "Requisite: ECON 999");
   ("ECON-302", mk "Requisite: ECON 999")].

(** Another [list(set(...))], listing in the opposite order. *)
Definition list_set_rev (l : list nat) : list nat := rev (nodup Nat.eq_dec l).

(** A graph with edges in and out of the ECON department. *)
Definition small_graph : graph :=
  {| vs_name := ["MATH-111"; "ECON-101"; "ECON-201"; "PHIL-100"; "STAT-200"];
     es := [(0, 1); (1, 2); (2, 4)] |}.

(** A store in which ECON-301 requires ECON-999, which is not offered. *)
Definition phantom_store : catalog :=
  [("MATH-999", mk ""); ("ECON-301", mk "Requisite: ECON 999")].

(** The record exported for a node without details in the store. *)
Definition phantom_record (i : nat) (name : string) (xy : Q * Q)
  (rgb : Z * Z * Z) : odict :=
  [("label", VNode i name);
   ("x", VFloat (fst xy));
   ("y", VFloat (snd xy));
   ("id", VStr (str_node i name));
   ("attributes", VDict
      [("Title", VNode i name);
       ("Description", VStr "not offered in the last 4 semesters");
       ("Department Code", VStr (dept_of name));
       ("Course Site", VStr "");
       ("Requisite", VStr "")]);
   ("color", VStr ("rgb" ++ str_rgb rgb));
   ("size", VFloat (10 # 1)%Q)].

(** The course graph of [phantom_store]. *)
Definition phantom_graph : graph :=
  {| vs_name := ["MATH-999"; "ECON-301"; "ECON-999"]; es := [(2, 1)] |}.

Definition no_data : data := {| edges := []; nodes := [] |}.

(** The document exported for the ECON department of [phantom_store]. *)
Definition phantom_doc : data :=
  Eval vm_compute in
    match make_json list_set_nodup layout_row rand_mod 0 "ECON"
            phantom_store phantom_graph with
    | Some d => d
    | None => no_data
    end.

(** The ids of a list of exported records. *)
Definition ids (l : list odict) : list (option pyval) :=
  map (lookup "id") l.

(** The characters at which a description is cut into words in the end:
    those of [split_words], the two of [split_sentences], and the
    non-breaking space. *)
Definition token_sep (c : ascii) : bool :=
  is_char " " c || is_char "-" c || is_char "," c || is_char "/" c
  || is_char ";" c || is_char "." c || is_char newline c || is_char nbsp c.

(** Two vertices joined by an edge, in either direction. *)
Definition adjacent (g : graph) (i j : nat) : Prop :=
  exists e, In e (es g) /\
            ((fst e = j /\ snd e = i) \/ (snd e = j /\ fst e = i)).

(** The vertex [i] carries a name of the department [d]. *)
Definition in_department (g : graph) (d : string) (i : nat) : Prop :=
  exists name, nth_error (vs_name g) i = Some name /\ dept_of name = d.

Definition empty_graph : graph := {| vs_name := []; es := [] |}.

(** The record exported for a node with details [d] in the store. *)
Definition known_record (i : nat) (name : string) (xy : Q * Q)
  (rgb : Z * Z * Z) (d : course) : odict :=
  [("label", VNode i name);
   ("x", VFloat (fst xy));
   ("y", VFloat (snd xy));
   ("id", VStr (str_node i name));
   ("attributes", VDict
      [("Title", VStr (title d));
       ("Description", VStr (description d));
       ("Department Code", VStr (take 4 name));
       ("Course Site", VStr ("<a href= '" ++ url d ++ "'> Course Site </a>"));
       ("Requisite", VList (prereqs d))]);
   ("color", VStr ("rgb" ++ str_rgb rgb));
   ("size", VFloat (10 # 1)%Q)].

(** The record exported for the edge of index [j] from vertex [s] to
    vertex [t], in the colour [rgb]. *)
Definition edge_record (j s t : nat) (rgb : Z * Z * Z) : odict :=
  [("label", VStr "");
   ("source", VStr (str_nat s));
   ("target", VStr (str_nat t));
   ("id", VStr (str_int (6 + 2 * Z.of_nat j)));
   ("attributes", VDict []);
   ("color", VStr ("rgb" ++ str_rgb rgb));
   ("size", VFloat (1 # 1)%Q)].

(** The three values drawn from the n-th draw onwards. *)
Definition drawn (rand : nat -> Z) (n : nat) : Z * Z * Z :=
  (rand n, rand (S n), rand (S (S n))).

(** A layout that is one row short. *)
Definition layout_short (g : graph) : list (Q * Q) :=
  map (fun i => (Z.of_nat i # 1, 0 # 1)%Q) (seq 0 (vcount g - 1)).

(** ** get_course_description *)

(** What [get_institution_course_urls] stores for a course (lines
    137-143). *)
Record listing := {
  l_title : string;
  l_url : string;
  l_times : string;
  l_date : string;
  l_date_checked : string
}.

(** A course of [institutions[institution]]: its listing and, once
    described, the keys "description" and "prereqs". *)
Record entry := {
  listed : listing;
  described : option (string * list string)
}.

(** ['\n'.join(tmp)] *)
Definition join_lines (tmp : list string) : string :=
  String.concat (String newline "") tmp.

(** Lines 164-176 for one course.  [fetch url] stands for the texts that
    the request and the XPath query of lines 167-169 yield for [url]; the
    second component of the state lists the urls requested so far. *)
Definition describe_step (fetch : string -> list string)
  (st : list (string * entry) * list string) (course : string)
  : list (string * entry) * list string :=
  let '(courses, requested) := st in
  match lookup course courses with
  | None => st
  | Some e =>
      match described e with
      | Some _ => st
      | None =>
          let tmp := join_lines (fetch (l_url (listed e))) in
          (dict_set course
             {| listed := listed e;
                described := Some (tmp, description_prereqs tmp) |}
             courses,
           (requested ++ [l_url (listed e)])%list)
      end
  end.

(** Lines 159-178 for one institution. *)
Definition institution_step (fetch : string -> list string)
  (st : list (string * list (string * entry)) * list string)
  (institution : string)
  : list (string * list (string * entry)) * list string :=
  let '(institutions, requested) := st in
  match lookup institution institutions with
  | None => st
  | Some courses =>
      let '(courses', requested') :=
        fold_left (describe_step fetch) (keys courses) (courses, requested) in
      (dict_set institution courses' institutions, requested')
  end.

(** [get_course_description]: the dictionary returned and the urls
    requested, in order. *)
Definition get_course_description (fetch : string -> list string)
  (institutions : list (string * list (string * entry)))
  : list (string * list (string * entry)) * list string :=
  fold_left (institution_step fetch) (keys institutions) (institutions, []).

(** The entry of a course after the function has seen it. *)
Definition describe (fetch : string -> list string) (e : entry) : entry :=
  match described e with
  | Some _ => e
  | None =>
      {| listed := listed e;
         described :=
           Some (join_lines (fetch (l_url (listed e))),
                 chars (join_lines (fetch (l_url (listed e))))) |}
  end.

(** Test data: one institution with a described and an undescribed
    course. *)
Definition listing_of (u : string) : listing :=
  {| l_title := "t"; l_url := u; l_times := ""; l_date := "2016S";
     l_date_checked := "2016-02-26" |}.

Definition two_courses : list (string * list (string * entry)) :=
  [("S", [("ECO-150", {| listed := listing_of "u1"; described := None |});
          ("MTH-111", {| listed := listing_of "u2";
                         described := Some ("old", ["o"; "l"; "d"]) |})])].

Definition fetch_fixed (u : string) : list string :=
  ["Prerequisite: MTH 111."; "Enrollment limited"].

(** The invariant of the outer loop: every institution is either as it was
    or has had all its courses described. *)
Definition seen_or_same (fetch : string -> list string)
  (insts0 insts : list (string * list (string * entry))) (done : list string)
  : Prop :=
  keys insts = keys insts0 /\
  forall i cs, lookup i insts0 = Some cs ->
    exists cs', lookup i insts = Some cs' /\ keys cs' = keys cs /\
      forall k, lookup k cs' =
                if mem i done then option_map (describe fetch) (lookup k cs)
                else lookup k cs.

(** ** coursescraper.py: the edge list and the courses without codes *)

(** Lines 215-218: [edgesTempList], the (source, target) pairs of the
    dictionary [prereqs]. *)
Definition edgesTempList (prereqs_dict : list (string * list string))
  : list (string * string) :=
  flat_map (fun target =>
              match lookup target prereqs_dict with
              | Some sources => map (fun source => (source, target)) sources
              | None => []
              end)
           (keys prereqs_dict).

(** Line 175: [noShow], the keys of [prereqs] with no required course. *)
Definition noShow (prereqs_dict : list (string * list string)) : list string :=
  filter (fun k => match lookup k prereqs_dict with
                   | Some l => (List.length l =? 0)%nat
                   | None => false
                   end)
         (keys prereqs_dict).

Definition amherst_details : list (string * Amherst.details) :=
  [("ECON-301",
    {| Amherst.a_url := "www.amherst.edu/academiclife/departments/courses/1516F/ECON/ECON-301-1516F";
       Amherst.a_depts := ["economics"];
       Amherst.rLine := ["Requisite: ECON 111 and MATH 121."] |});
   ("ECON-111",
    {| Amherst.a_url := "www.amherst.edu/academiclife/departments/courses/1516F/ECON/ECON-111-1516F";
       Amherst.a_depts := ["economics"];
       Amherst.rLine := [] |});
   ("MUSI-105",
    {| Amherst.a_url := "www.amherst.edu/academiclife/departments/courses/1516F/MUSI/MUSI-105-1516F";
       Amherst.a_depts := ["music"];
       Amherst.rLine := ["Requisite: consent of the instructor."] |})].

(** ** coursescraper.py: the code of a course page *)

Definition no_slash (s : string) : bool :=
  all_chars (fun c => negb (is_char "/" c)) s.

(** ['-'.join(url.split('/')[::-1][0].split('-')[0:2])] (lines 105 and
    143): the first two hyphen-separated pieces of the last segment of the
    url. *)
Definition code_of_url (u : string) : string :=
  String.concat "-" (firstn 2 (split_dash (hd "" (rev (split_slash u))))).

(** * Properties *)

(** ** Membership and lookup *)

Lemma mem_In (x : string) (l : list string) : mem x l = true <-> In x l.
Proof.
  unfold mem. rewrite existsb_exists. split.
  - intros [y [Hy He]]. apply String.eqb_eq in He. now subst.
  - intros H. exists x. split; [assumption | apply String.eqb_refl].
Qed.

Lemma mem_false (x : string) (l : list string) : mem x l = false <-> ~ In x l.
Proof.
  rewrite <- mem_In. destruct (mem x l); split; congruence.
Qed.

Lemma lookup_Some_In {V} (k : string) (d : list (string * V)) (v : V) :
  lookup k d = Some v -> In k (keys d).
Proof.
  induction d as [| [k' v'] r IH]; simpl; [discriminate |].
  destruct (String.eqb_spec k k'); [left; congruence | right; auto].
Qed.

Lemma lookup_None_iff {V} (k : string) (d : list (string * V)) :
  lookup k d = None <-> ~ In k (keys d).
Proof.
  induction d as [| [k' v'] r IH]; simpl; [tauto |].
  destruct (String.eqb_spec k k'); split; intros H.
  - discriminate.
  - exfalso. apply H. left. congruence.
  - intros [E | I]; [congruence | now apply IH].
  - apply IH. tauto.
Qed.

Lemma In_keys_lookup {V} (k : string) (d : list (string * V)) :
  In k (keys d) -> exists v, lookup k d = Some v.
Proof.
  intros H. destruct (lookup k d) eqn:E; [eauto |].
  apply lookup_None_iff in E. contradiction.
Qed.

Lemma In_chain (k : string) (l : list edge) :
  In k (chain l) <-> exists e, In e l /\ (fst e = k \/ snd e = k).
Proof.
  unfold chain. rewrite in_flat_map. split.
  - intros [e [He [H | [H | []]]]]; exists e; tauto.
  - intros [e [He H]]. exists e. simpl. tauto.
Qed.

(** ** get_prereqs on a small store *)

Example get_prereqs_econ :
  get_prereqs [("ECON-101", mk ""); ("MATH-211", mk "");
               ("ECON-301", mk "Requisite: MATH 211 and ECON 101.")]
  = Some [("MATH-211", "ECON-301"); ("ECON-101", "ECON-301")].
Proof. vm_compute. reflexivity. Qed.

(** ** The sentence test and the requisite line *)

Lemma sentence_test_true {ops : StrOps} (s : string) : sentence_test s = true.
Proof. reflexivity. Qed.

Lemma requisite_test_true (s : string) : requisite_test s = true.
Proof. reflexivity. Qed.

Lemma append_assoc (a b c : string) : (a ++ b) ++ c = a ++ (b ++ c).
Proof. induction a; simpl; congruence. Qed.

Lemma append_empty_r (a : string) : a ++ "" = a.
Proof. induction a; simpl; congruence. Qed.

Lemma fold_req_line {ops : StrOps} (l : list string) (acc : string) :
  fold_left req_line_step l acc = acc ++ spaced l.
Proof.
  revert acc. induction l as [| s r IH]; intros acc; simpl.
  - now rewrite append_empty_r.
  - rewrite IH. unfold req_line_step. rewrite sentence_test_true.
    now rewrite !append_assoc.
Qed.

Lemma filter_all {A} (p : A -> bool) (l : list A) :
  (forall x, p x = true) -> filter p l = l.
Proof.
  intros H. induction l; simpl; [reflexivity |]. rewrite H. congruence.
Qed.

(** C3.  The sentence test holds of every sentence, whatever it contains;
    the requisite line of a non-empty description is the concatenation of
    all its sentences (split at newlines and periods, each followed by a
    space), and that of the empty description is empty.  The same test in
    get_course_description keeps every item it is applied to. *)
Theorem req_line_all_sentences {ops : StrOps} :
  (forall s, sentence_test s = true) /\
  (forall c r, req_line_of (String c r) =
               spaced (split_sentences (replace_nbsp (String c r)))) /\
  req_line_of "" = "" /\
  (forall tmp, description_prereqs tmp = chars tmp) /\
  description_prereqs "" = [].
Proof.
  split; [exact sentence_test_true |].
  split.
  - intros c r. unfold req_line_of. now rewrite fold_req_line.
  - split; [reflexivity |]. split; [| reflexivity].
    intros tmp. unfold description_prereqs.
    apply filter_all, requisite_test_true.
Qed.

Example req_line_two_sentences :
  req_line_of "Intro to markets. Meets twice a week" =
  "Intro to markets  Meets twice a week ".
Proof. reflexivity. Qed.

(** ** test_prereqs *)

Lemma reported_iff (l : list edge) (c : catalog) (k : string) :
  reported l c k = true <->
  ~ In k (chain l) /\ exists d, lookup k c = Some d /\ prereqs d <> [].
Proof.
  unfold reported. rewrite andb_true_iff, negb_true_iff, mem_false.
  split; intros [H1 H2]; split; try assumption.
  - destruct (lookup k c) as [d |]; [| discriminate].
    exists d. split; [reflexivity |].
    destruct (prereqs d); [discriminate | discriminate].
  - destruct H2 as [d [-> Hd]].
    destruct (prereqs d); [congruence | reflexivity].
Qed.

(** C6.  test_prereqs prints exactly the courses of the store whose
    prereqs field is non-empty and whose code is an endpoint of no edge,
    neither the required nor the requiring one; the counter it prints is
    their number. *)
Theorem test_prereqs_reports (l : list edge) (c : catalog) :
  (forall k, In k (map fst (fst (test_prereqs l c))) <->
     In k (keys c) /\
     (exists d, lookup k c = Some d /\ prereqs d <> []) /\
     (forall e, In e l -> fst e <> k /\ snd e <> k)) /\
  snd (test_prereqs l c) = List.length (fst (test_prereqs l c)).
Proof.
  unfold test_prereqs. simpl. split.
  - intros k. rewrite map_map. simpl. rewrite map_id.
    rewrite filter_In, reported_iff, In_chain. split.
    + intros [Hk [Hn Hd]]. repeat split; try assumption.
      * intros E. apply Hn. exists e. tauto.
      * intros E. apply Hn. exists e. tauto.
    + intros [Hk [Hd Hn]]. repeat split; try assumption.
      intros [e [He [E | E]]]; destruct (Hn e He); contradiction.
  - now rewrite length_map.
Qed.

Example test_prereqs_econ :
  test_prereqs [("ECON-101", "ECON-201")]
    [("ECON-101", mk ""); ("ECON-201", mk "Requisite: ECON 101");
     ("ECON-250", mk "x")]
  = ([("ECON-250", ["x"])], 1).
Proof. reflexivity. Qed.

(** ** The scanning loops *)

Lemma flat_map_agree {X Y} (f g : X -> list Y) (l : list X) :
  (forall x, In x l -> f x = g x) -> flat_map f l = flat_map g l.
Proof.
  induction l as [| a l IH]; intros H; simpl; [reflexivity |].
  rewrite (H a) by now left.
  rewrite IH; [reflexivity |]. intros x Hx. apply H. now right.
Qed.

Lemma cursor_after_cases (is_dept : string -> bool) (own : string)
  (pre : list string) :
  cursor_after is_dept own pre = own \/ In (cursor_after is_dept own pre) pre.
Proof.
  unfold cursor_after. destruct (find is_dept (rev pre)) eqn:E; [| now left].
  right. apply find_some in E. apply in_rev. tauto.
Qed.

Section Scan.

Context {A : Type}.
Variables is_dept is_num : string -> bool.
Variable code : string -> string -> A.

Lemma cursor_after_snoc (own : string) (ws : list string) (w : string) :
  cursor_after is_dept own (ws ++ [w]) =
  if is_dept w then w else cursor_after is_dept own ws.
Proof.
  unfold cursor_after. rewrite rev_app_distr. simpl.
  now destruct (is_dept w).
Qed.

Lemma gen_cursor (own : string) (ws : list string) (acc : list A) :
  fst (fold_left (gen_step is_dept is_num code) ws (own, acc)) =
  cursor_after is_dept own ws.
Proof.
  induction ws as [| w ws IH] using rev_ind; [reflexivity |].
  rewrite fold_left_app, cursor_after_snoc. simpl.
  now rewrite IH.
Qed.

Lemma emitted_at_prefix (own : string) (ws : list string) (w : string)
  (n : nat) :
  n < List.length ws ->
  emitted_at is_dept is_num code own (ws ++ [w]) n =
  emitted_at is_dept is_num code own ws n.
Proof.
  intros H. unfold emitted_at.
  rewrite nth_error_app1 by assumption.
  rewrite firstn_app.
  replace (S n - List.length ws) with 0 by lia.
  simpl. now rewrite app_nil_r.
Qed.

Lemma emitted_at_last (own : string) (ws : list string) (w : string) :
  emitted_at is_dept is_num code own (ws ++ [w]) (List.length ws) =
  if is_num w then [code (cursor_after is_dept own (ws ++ [w])) w] else [].
Proof.
  unfold emitted_at.
  rewrite (firstn_all2 (n := S (List.length ws)) (ws ++ [w]))
    by (rewrite length_app; simpl; lia).
  rewrite nth_error_app2, Nat.sub_diag by lia. reflexivity.
Qed.

Lemma emitted_snoc (own : string) (ws : list string) (w : string) :
  emitted is_dept is_num code own (ws ++ [w]) =
  (emitted is_dept is_num code own ws ++
   if is_num w then [code (cursor_after is_dept own (ws ++ [w])) w]
   else [])%list.
Proof.
  unfold emitted. rewrite length_app. simpl.
  rewrite seq_app, flat_map_app. simpl.
  rewrite app_nil_r, emitted_at_last. f_equal.
  apply flat_map_agree. intros n Hn. apply in_seq in Hn.
  apply emitted_at_prefix. lia.
Qed.

Lemma gen_scan (own : string) (ws : list string) (acc : list A) :
  snd (fold_left (gen_step is_dept is_num code) ws (own, acc)) =
  (acc ++ emitted is_dept is_num code own ws)%list.
Proof.
  induction ws as [| w ws IH] using rev_ind.
  - simpl. now rewrite app_nil_r.
  - rewrite fold_left_app, emitted_snoc, cursor_after_snoc. simpl.
    rewrite IH, gen_cursor.
    destruct (is_num w); [now rewrite app_assoc | now rewrite app_nil_r].
Qed.

Lemma In_emitted (own : string) (ws : list string) (x : A) :
  In x (emitted is_dept is_num code own ws) <->
  exists n w, nth_error ws n = Some w /\ is_num w = true /\
              x = code (cursor_after is_dept own (firstn (S n) ws)) w.
Proof.
  unfold emitted. rewrite in_flat_map. split.
  - intros [n [_ H]]. unfold emitted_at in H.
    destruct (nth_error ws n) as [w |] eqn:E; [| contradiction].
    destruct (is_num w) eqn:N; [| contradiction].
    destruct H as [<- | []]. eauto.
  - intros [n [w [E [N ->]]]]. exists n. split.
    + apply in_seq. assert (n < List.length ws)
        by (apply nth_error_Some; congruence). lia.
    + unfold emitted_at. rewrite E, N. now left.
Qed.

End Scan.

Lemma fold_left_ext_step {S W} (f g : S -> W -> S) (l : list W) (s : S) :
  (forall s w, f s w = g s w) -> fold_left f l s = fold_left g l s.
Proof.
  intros H. revert s. induction l; intros s; simpl; [reflexivity |].
  now rewrite H, IHl.
Qed.

Lemma scan_step_gen {ops : StrOps} (depts nums : list string) (k : string)
  (st : string * list edge) (w : string) :
  scan_step depts nums k st w =
  gen_step (fun w => mem (upper w) depts) (in_nums nums) (edge_code k) st w.
Proof. destruct st. reflexivity. Qed.

Lemma amherst_step_gen {ops : StrOps} (depts : list string) (st : string * list string)
  (w : string) :
  Amherst.word_step depts st w =
  gen_step (fun w => mem w depts) numeric3 amherst_code st w.
Proof. destruct st. reflexivity. Qed.

Lemma scan_words_emitted {ops : StrOps} (depts nums : list string) (k own : string)
  (ws : list string) (acc : list edge) :
  scan_words depts nums k own ws acc =
  (acc ++ emitted (fun w => mem (upper w) depts) (in_nums nums)
            (edge_code k) own ws)%list.
Proof.
  unfold scan_words.
  rewrite (fold_left_ext_step _ _ _ _ (scan_step_gen depts nums k)).
  apply gen_scan.
Qed.

Lemma amherst_scan_emitted {ops : StrOps} (depts : list string) (own : string)
  (ws : list string) :
  Amherst.scan_rline depts own ws =
  emitted (fun w => mem w depts) numeric3 amherst_code own ws.
Proof.
  unfold Amherst.scan_rline.
  rewrite (fold_left_ext_step _ _ _ _ (amherst_step_gen depts)).
  apply (gen_scan (fun w => mem w depts) numeric3 amherst_code own ws []).
Qed.

(** C2, as the code has it.  Both tokenizers read the words left to right
    with a department cursor that starts at the course's own department.
    In get_prereqs a word whose upper-case form is a known department code
    becomes the cursor, and the words that emit are exactly those listed in
    nums: such a word [w] appends the edge (upper(cursor) + "-" + w, k),
    whether or not that code is a course of the store.  In the Amherst block
    a word listed in depts becomes the cursor and the words that emit are
    exactly the numeric ones of length 3, giving cursor + "-" + w.  The
    cursor at a word is the last department word up to and including it. *)
Theorem tokenizer_scan {ops : StrOps} :
  (forall depts nums k own ws acc,
     scan_words depts nums k own ws acc =
     (acc ++ emitted (fun w => mem (upper w) depts) (in_nums nums)
               (edge_code k) own ws)%list) /\
  (forall depts own ws,
     Amherst.scan_rline depts own ws =
     emitted (fun w => mem w depts) numeric3 amherst_code own ws) /\
  (forall depts nums k own ws n w,
     nth_error ws n = Some w -> In w nums ->
     In (upper (cursor_after (fun w => mem (upper w) depts) own
                  (firstn (S n) ws)) ++ "-" ++ w, k)
        (scan_words depts nums k own ws [])).
Proof.
  split; [exact scan_words_emitted |].
  split; [exact amherst_scan_emitted |].
  intros depts nums k own ws n w E N.
  rewrite scan_words_emitted. simpl.
  apply In_emitted. exists n, w. split; [assumption |].
  split; [now apply mem_In | reflexivity].
Qed.

Lemma tokenizer_scan_witness :
  In ("MATH-211", "ECON-301")
     (scan_words ["ECON"; "MATH"] ["101"; "211"] "ECON-301" "ECON"
        ["Requisite:"; "math"; "211"] []).
Proof.
  exact (proj2 (proj2 tokenizer_scan) ["ECON"; "MATH"] ["101"; "211"]
           "ECON-301" "ECON" ["Requisite:"; "math"; "211"] 2 "211"
           eq_refl (or_intror (or_introl eq_refl))).
Defined.

(** C2, as stated, fails in get_prereqs: "999" is a purely numeric word of
    the requisite line of ECON-301, and no edge is emitted for it, because
    999 is the number of no course in the store. *)
Lemma numeric_token_not_emitted :
  In "999" (split_words (req_line_of "Requisite: ECON 999")) /\
  isnumeric "999" = true /\
  get_prereqs [("ECON-301", mk "Requisite: ECON 999")] = Some [].
Proof.
  split; [vm_compute; tauto |]. split; reflexivity.
Qed.

Example tokenizer_same_department :
  get_prereqs
    [("ECON-101", mk ""); ("ECON-201", mk ""); ("MATH-111", mk "");
     ("ECON-301",
      mk "Requisite: ECON 101 or 201, or consent of instructor.")]
  = Some [("ECON-101", "ECON-301"); ("ECON-201", "ECON-301")].
Proof. vm_compute. reflexivity. Qed.

Example amherst_tokenizer :
  Amherst.scan_rline ["ECON"; "MATH"] "ECON"
    (split_words "Requisite: MATH 211 and ECON 301 or 7.") =
  ["MATH-211"; "ECON-301"].
Proof. vm_compute. reflexivity. Qed.

(** ** The edges of get_prereqs *)

Lemma In_scan_words {ops : StrOps} (depts nums : list string) (k own : string)
  (ws : list string) (acc : list edge) (e : edge) :
  In e (scan_words depts nums k own ws acc) ->
  In e acc \/
  exists d w, (d = own \/ In d ws) /\ In w ws /\ In w nums /\
              e = (upper d ++ "-" ++ w, k).
Proof.
  rewrite scan_words_emitted, in_app_iff.
  intros [H | H]; [now left | right].
  apply In_emitted in H. destruct H as [n [w [E [N ->]]]].
  exists (cursor_after (fun w => mem (upper w) depts) own (firstn (S n) ws)), w.
  split.
  - destruct (cursor_after_cases (fun w => mem (upper w) depts) own
                (firstn (S n) ws)) as [C | C]; [left; exact C | right].
    rewrite <- (firstn_skipn (S n) ws) at 2. apply in_or_app. left. exact C.
  - split; [eapply nth_error_In; eassumption |].
    split; [now apply mem_In | reflexivity].
Qed.

Lemma In_course_step {ops : StrOps} (depts nums : list string) (c : catalog)
  (acc : list edge) (k : string) (e : edge) :
  In e (course_step depts nums c acc k) ->
  In e acc \/
  exists details d w,
    lookup k c = Some details /\
    (d = dept_of k \/
     In d (split_words (req_line_of (description details)))) /\
    In w (split_words (req_line_of (description details))) /\
    In w nums /\ e = (upper d ++ "-" ++ w, k).
Proof.
  unfold course_step. destruct (lookup k c) as [details |]; [| now left].
  destruct (description details) as [| a r] eqn:D; [now left |].
  intros H. apply In_scan_words in H.
  destruct H as [H | [d [w H]]]; [now left | right].
  exists details, d, w. rewrite D. tauto.
Qed.

Lemma In_fold_course_step {ops : StrOps} (depts nums : list string) (c : catalog)
  (ks : list string) (acc : list edge) (e : edge) :
  In e (fold_left (course_step depts nums c) ks acc) ->
  In e acc \/
  exists k details d w,
    In k ks /\ lookup k c = Some details /\
    (d = dept_of k \/
     In d (split_words (req_line_of (description details)))) /\
    In w (split_words (req_line_of (description details))) /\
    In w nums /\ e = (upper d ++ "-" ++ w, k).
Proof.
  revert acc. induction ks as [| k ks IH]; intros acc; simpl; [now left |].
  intros H. apply IH in H. destruct H as [H | [k' [dt [d [w H]]]]].
  - apply In_course_step in H.
    destruct H as [H | [dt [d [w H]]]]; [now left | right].
    exists k, dt, d, w. tauto.
  - right. exists k', dt, d, w. tauto.
Qed.

(** C7.  Every edge returned by get_prereqs has, as its requiring code, a
    key of the store it was computed from. *)
Theorem requiring_code_known {ops : StrOps} (c : catalog) (l : list edge) :
  get_prereqs c = Some l ->
  forall e, In e l -> In (snd e) (keys c).
Proof.
  unfold get_prereqs. destruct (nums_of (keys c)) as [nums |]; [| discriminate].
  intros [= <-] e H. apply In_fold_course_step in H.
  destruct H as [[] | [k [dt [d [w [Hk [_ [_ [_ [_ ->]]]]]]]]]].
  exact Hk.
Qed.

Lemma requiring_code_known_witness :
  get_prereqs econ_store =
    Some [("ECON-101", "ECON-201"); ("ECON-201", "ECON-301")] /\
  In "ECON-301" (keys econ_store).
Proof.
  assert (G : get_prereqs econ_store =
                Some [("ECON-101", "ECON-201"); ("ECON-201", "ECON-301")])
    by (vm_compute; reflexivity).
  split; [exact G |].
  apply (requiring_code_known econ_store _ G ("ECON-201", "ECON-301")).
  simpl. tauto.
Defined.

(** get_prereqs returns whenever every key has a separator followed by a
    non-empty number. *)
Lemma nums_of_total {ops : StrOps} (ks : list string) :
  (forall k, In k ks -> exists a n, num_of k = Some (String a n)) ->
  exists nums, nums_of ks = Some nums.
Proof.
  induction ks as [| k ks IH]; intros H; simpl; [eauto |].
  destruct (H k (or_introl eq_refl)) as [a [n ->]]. simpl.
  destruct IH as [nums ->]; [intros; apply H; now right | eauto].
Qed.

Lemma get_prereqs_total {ops : StrOps} (c : catalog) :
  (forall k, In k (keys c) -> exists a n, num_of k = Some (String a n)) ->
  exists l, get_prereqs c = Some l.
Proof.
  intros H. unfold get_prereqs.
  destruct (nums_of_total _ H) as [nums ->]. eauto.
Qed.

(** *** The list nums *)


(** *** Pieces of a split hold no separator *)

Lemma split_on_nonempty (sep : ascii -> bool) (s : string) :
  split_on sep s <> [].
Proof.
  destruct s as [| c r]; simpl; [discriminate |].
  destruct (sep c); [discriminate |].
  destruct (split_on sep r); discriminate.
Qed.

Lemma split_on_pieces (sep : ascii -> bool) (s : string) :
  Forall (fun p => all_chars (fun c => negb (sep c)) p = true)
         (split_on sep s).
Proof.
  induction s as [| c r IH]; simpl.
  - constructor; [reflexivity | constructor].
  - destruct (sep c) eqn:E.
    + constructor; [reflexivity | assumption].
    + destruct (split_on sep r) as [| p ps].
      * constructor; [simpl; now rewrite E | constructor].
      * inversion IH; subst. constructor; [| assumption].
        simpl. now rewrite E.
Qed.

Lemma all_chars_impl (p q : ascii -> bool) (s : string) :
  (forall c, p c = true -> q c = true) ->
  all_chars p s = true -> all_chars q s = true.
Proof.
  intros H. induction s as [| c r IH]; simpl; [reflexivity |].
  rewrite !andb_true_iff. intros [Hc Hr]. auto.
Qed.

Lemma split_words_no_dash (s w : string) :
  In w (split_words s) -> no_dash w = true.
Proof.
  unfold split_words. intros H.
  match type of H with In _ (split_on ?sep _) =>
    pose proof (split_on_pieces sep s) as F end.
  rewrite Forall_forall in F. apply F in H.
  revert H. apply all_chars_impl. intros c.
  destruct (is_char "-" c); [| reflexivity].
  now rewrite !orb_true_r.
Qed.

Lemma dept_of_no_dash (k : string) : no_dash (dept_of k) = true.
Proof.
  unfold dept_of, split_dash.
  pose proof (split_on_pieces (is_char "-") k) as F.
  destruct (split_on (is_char "-") k) as [| d r] eqn:E.
  - now apply split_on_nonempty in E.
  - now inversion F.
Qed.

Lemma split_on_no_sep (sep : ascii -> bool) (s : string) :
  all_chars (fun c => negb (sep c)) s = true -> split_on sep s = [s].
Proof.
  induction s as [| c r IH]; simpl; [reflexivity |].
  rewrite andb_true_iff, negb_true_iff. intros [-> Hr].
  now rewrite IH.
Qed.

Lemma split_on_app_sep (sep : ascii -> bool) (d : string) (c : ascii)
  (r : string) :
  all_chars (fun c => negb (sep c)) d = true -> sep c = true ->
  split_on sep (d ++ String c r) = d :: split_on sep r.
Proof.
  intros Hd Hc. induction d as [| a d IH]; simpl.
  - now rewrite Hc.
  - simpl in Hd. rewrite andb_true_iff, negb_true_iff in Hd.
    destruct Hd as [-> Hd]. now rewrite IH.
Qed.

Lemma num_of_code (d w : string) :
  no_dash d = true -> no_dash w = true ->
  dept_of (d ++ "-" ++ w) = d /\ num_of (d ++ "-" ++ w) = Some w.
Proof.
  intros Hd Hw. unfold dept_of, num_of, split_dash.
  change (d ++ "-" ++ w) with (d ++ String "-" w).
  rewrite split_on_app_sep by (assumption || reflexivity).
  rewrite split_on_no_sep by assumption. split; reflexivity.
Qed.




(** ** make_course_graph *)

Lemma In_names_of_courses (c : catalog) (l : list edge) (x : string) :
  In x (names_of_courses c l) <-> In x (keys c) \/ In x (chain l).
Proof.
  unfold names_of_courses, extra_courses.
  rewrite in_app_iff, filter_In, negb_true_iff, mem_false. split.
  - tauto.
  - intros [H | H]; [now left |].
    destruct (in_dec string_dec x (keys c)); tauto.
Qed.

Lemma index_of_In (x : string) (l : list string) :
  In x l -> exists i, index_of x l = Some i.
Proof.
  induction l as [| y r IH]; simpl; [intros [] |].
  destruct (String.eqb_spec x y); [eauto |].
  intros [E | H]; [congruence |].
  destruct (IH H) as [i ->]. simpl. eauto.
Qed.

Lemma resolve_edges_total (names : list string) (l : list edge) :
  (forall x, In x (chain l) -> In x names) ->
  exists r, resolve_edges names l = Some r.
Proof.
  induction l as [| [a b] l IH]; intros H; simpl; [eauto |].
  destruct (index_of_In a names) as [i ->]; [apply H; simpl; tauto |].
  destruct (index_of_In b names) as [j ->]; [apply H; simpl; tauto |].
  destruct IH as [r ->]; [intros x Hx; apply H; simpl; tauto | eauto].
Qed.

(** The graph is always built, its vertex names are the keys of the store
    followed by the endpoints not in the store, and as a set they are the
    known codes united with the endpoints. *)
Lemma make_course_graph_names (c : catalog) (l : list edge) :
  exists g, make_course_graph c l = Some g /\
            vs_name g = names_of_courses c l /\
            forall x, In x (vs_name g) <-> In x (keys c) \/ In x (chain l).
Proof.
  unfold make_course_graph.
  destruct (resolve_edges_total (names_of_courses c l) l) as [r ->].
  - intros x Hx. apply In_names_of_courses. now right.
  - eexists. split; [reflexivity |]. split; [reflexivity |].
    intros x. apply In_names_of_courses.
Qed.

(** C5 on the code.  ECON-301 and ECON-302 both require ECON-999, which is
    not in the store; the graph built from the two edges has two vertices
    named ECON-999, so its vertex names are not free of duplicates. *)
Theorem phantom_node_duplicated :
  exists l g,
    get_prereqs repeat_store = Some l /\
    l = [("ECON-999", "ECON-301"); ("ECON-999", "ECON-302")] /\
    make_course_graph repeat_store l = Some g /\
    vs_name g =
      ["MATH-999"; "ECON-301"; "ECON-302"; "ECON-999"; "ECON-999"] /\
    count_occ string_dec (vs_name g) "ECON-999" = 2 /\
    ~ NoDup (vs_name g).
Proof.
  eexists. eexists.
  split; [reflexivity |]. split; [reflexivity |].
  split; [reflexivity |]. split; [reflexivity |].
  split; [vm_compute; reflexivity |].
  simpl. intros H.
  rewrite (NoDup_count_occ string_dec) in H.
  specialize (H "ECON-999"). vm_compute in H. lia.
Qed.

(** ** make_subgraph *)

Lemma memn_In (x : nat) (l : list nat) : memn x l = true <-> In x l.
Proof.
  unfold memn. rewrite existsb_exists. split.
  - intros [y [Hy He]]. apply Nat.eqb_eq in He. now subst.
  - intros H. exists x. split; [assumption | apply Nat.eqb_refl].
Qed.

Lemma memn_agree (l1 l2 : list nat) (x : nat) :
  (forall y, In y l1 <-> In y l2) -> memn x l1 = memn x l2.
Proof.
  intros H. apply eq_true_iff_eq. rewrite !memn_In. apply H.
Qed.

(** The induced subgraph depends on the vertices listed, not on their order
    or repetition. *)
Lemma induced_subgraph_agree {eo : EdgeOrder} (g : graph) (v1 v2 : list nat) :
  (forall y, In y v1 <-> In y v2) ->
  induced_subgraph g v1 = induced_subgraph g v2.
Proof.
  intros H. unfold induced_subgraph.
  assert (E : filter (fun i => memn i v1) (seq 0 (vcount g)) =
              filter (fun i => memn i v2) (seq 0 (vcount g))).
  { apply filter_ext. intros x. now apply memn_agree. }
  now rewrite E.
Qed.

Lemma set_listing_nodup : set_listing list_set_nodup.
Proof.
  intros l. split; [apply NoDup_nodup | intros x; apply nodup_In].
Qed.

Lemma set_listing_rev : set_listing list_set_rev.
Proof.
  intros l. unfold list_set_rev. split.
  - apply NoDup_rev, NoDup_nodup.
  - intros x. rewrite <- in_rev. apply nodup_In.
Qed.

(** C9.  Two runs of make_subgraph on the same graph and department, each
    with its own enumeration order of the set of relevant vertices, give
    the same vertices and the same edges; the function draws no random
    number.  get_sugiyama_layout after it only reads the subgraph, and
    returns the same rows in both runs. *)
Theorem make_subgraph_deterministic {eo : EdgeOrder} (f1 f2 : list nat -> list nat)
  (dept_string : string) (g : graph) :
  set_listing f1 -> set_listing f2 ->
  vs_name (make_subgraph f1 dept_string g) =
    vs_name (make_subgraph f2 dept_string g) /\
  es (make_subgraph f1 dept_string g) = es (make_subgraph f2 dept_string g) /\
  forall layout_sugiyama,
    get_sugiyama_layout layout_sugiyama (make_subgraph f1 dept_string g) =
    get_sugiyama_layout layout_sugiyama (make_subgraph f2 dept_string g).
Proof.
  intros H1 H2.
  assert (E : make_subgraph f1 dept_string g = make_subgraph f2 dept_string g).
  { unfold make_subgraph. apply induced_subgraph_agree. intros y.
    rewrite (proj2 (H1 _) y), (proj2 (H2 _) y). tauto. }
  rewrite E. split; [reflexivity |]. split; reflexivity.
Qed.

Lemma make_subgraph_deterministic_witness :
  vs_name (make_subgraph list_set_nodup "ECON" small_graph) =
    vs_name (make_subgraph list_set_rev "ECON" small_graph) /\
  es (make_subgraph list_set_nodup "ECON" small_graph) =
    es (make_subgraph list_set_rev "ECON" small_graph).
Proof.
  destruct (make_subgraph_deterministic list_set_nodup list_set_rev "ECON"
              small_graph set_listing_nodup set_listing_rev) as [Hv [He _]].
  split; [exact Hv | exact He].
Defined.

Example make_subgraph_econ :
  make_subgraph list_set_rev "ECON" small_graph =
  {| vs_name := ["MATH-111"; "ECON-101"; "ECON-201"; "STAT-200"];
     es := [(0, 1); (1, 2); (2, 3)] |}.
Proof. vm_compute. reflexivity. Qed.

(** ** make_json *)

Lemma traverse_nth {X Y} (f : X -> option Y) (l : list X) (r : list Y)
  (i : nat) (a : X) :
  traverse f l = Some r -> nth_error l i = Some a ->
  exists b, f a = Some b /\ nth_error r i = Some b.
Proof.
  revert r i. induction l as [| x l IH]; intros r i H E.
  - destruct i; discriminate.
  - simpl in H. unfold bind in H.
    destruct (f x) as [y |] eqn:Fx; [| discriminate].
    destruct (traverse f l) as [ys |]; [| discriminate].
    injection H as <-. destruct i as [| i]; simpl in *.
    + injection E as <-. eauto.
    + eapply IH; [reflexivity | eassumption].
Qed.

Lemma traverse_nth_inv {X Y} (f : X -> option Y) (l : list X) (r : list Y)
  (i : nat) (b : Y) :
  traverse f l = Some r -> nth_error r i = Some b ->
  exists a, nth_error l i = Some a /\ f a = Some b.
Proof.
  revert r i. induction l as [| x l IH]; intros r i H E; simpl in H.
  - injection H as <-. destruct i; discriminate.
  - unfold bind in H.
    destruct (f x) as [y |] eqn:Fx; [| discriminate].
    destruct (traverse f l) as [ys |]; [| discriminate].
    injection H as <-. destruct i as [| i]; simpl in *.
    + injection E as <-. eauto.
    + eapply IH; [reflexivity | eassumption].
Qed.

Lemma traverse_all {X Y} (f : X -> option Y) (l : list X) (r : list Y)
  (b : Y) :
  traverse f l = Some r -> In b r -> exists a, In a l /\ f a = Some b.
Proof.
  intros H Hb. apply In_nth_error in Hb. destruct Hb as [i Hi].
  destruct (traverse_nth_inv f l r i b H Hi) as [a [Ha Hf]].
  exists a. split; [eapply nth_error_In; eassumption | assumption].
Qed.

Lemma combine_seq_nth {X} (l : list X) (s i : nat) (a : X) :
  nth_error l i = Some a ->
  nth_error (combine (seq s (List.length l)) l) i = Some (s + i, a).
Proof.
  revert s i. induction l as [| x l IH]; intros s i E.
  - destruct i; discriminate.
  - destruct i as [| i]; simpl in *.
    + injection E as <-. now rewrite Nat.add_0_r.
    + rewrite (IH (S s) i E). f_equal. f_equal. lia.
Qed.

Lemma enumerate_nth {X} (l : list X) (i : nat) (a : X) :
  nth_error l i = Some a -> nth_error (enumerate l) i = Some (i, a).
Proof. intros E. apply (combine_seq_nth l 0 i a E). Qed.

Lemma combine_seq_nth_inv {X} (l : list X) (s i : nat) (p : nat * X) :
  nth_error (combine (seq s (List.length l)) l) i = Some p ->
  fst p = s + i /\ nth_error l i = Some (snd p).
Proof.
  revert s i. induction l as [| x l IH]; intros s i E.
  - destruct i; discriminate.
  - destruct i as [| i]; simpl in *.
    + injection E as <-. simpl. split; [lia | reflexivity].
    + destruct (IH (S s) i E) as [H1 H2]. split; [lia | assumption].
Qed.

Lemma enumerate_nth_inv {X} (l : list X) (i : nat) (p : nat * X) :
  nth_error (enumerate l) i = Some p ->
  fst p = i /\ nth_error l i = Some (snd p).
Proof. intros E. apply (combine_seq_nth_inv l 0 i p E). Qed.

(** A node record has seven entries, and its id is the text of the pair
    [(i, name)]. *)
Lemma node_output_shape (layout : list (Q * Q))
  (colors : list (string * (Z * Z * Z))) (c : catalog) (i : nat)
  (name : string) (rec : odict) :
  node_output layout colors c (i, name) = Some rec ->
  List.length rec = 7 /\
  lookup "id" rec = Some (VStr (str_node i name)) /\
  exists xy rgb,
    nth_error layout i = Some xy /\
    lookup (dept_of name) colors = Some rgb /\
    lookup "x" rec = Some (VFloat (fst xy)) /\
    lookup "y" rec = Some (VFloat (snd xy)) /\
    lookup "color" rec = Some (VStr ("rgb" ++ str_rgb rgb)) /\
    lookup "size" rec = Some (VFloat (10 # 1)%Q).
Proof.
  unfold node_output, bind.
  destruct (nth_error layout i) as [xy |];
    [| destruct (lookup name c); discriminate].
  destruct (lookup (dept_of name) colors) as [rgb |];
    [| destruct (lookup name c); discriminate].
  destruct (lookup name c); intros [= <-];
    (split; [reflexivity |]); (split; [reflexivity |]);
    exists xy, rgb; repeat split; reflexivity.
Qed.

Lemma node_output_phantom (layout : list (Q * Q))
  (colors : list (string * (Z * Z * Z))) (c : catalog) (i : nat)
  (name : string) (rec : odict) :
  lookup name c = None ->
  node_output layout colors c (i, name) = Some rec ->
  exists xy rgb,
    nth_error layout i = Some xy /\
    lookup (dept_of name) colors = Some rgb /\
    rec = phantom_record i name xy rgb.
Proof.
  intros N. unfold node_output, bind. rewrite N.
  destruct (nth_error layout i) as [xy |]; [| discriminate].
  destruct (lookup (dept_of name) colors) as [rgb |]; [| discriminate].
  intros [= <-]. exists xy, rgb. repeat split; reflexivity.
Qed.

Lemma make_json_inv {eo : EdgeOrder} (list_set : list nat -> list nat)
  (layout_sugiyama : graph -> list (Q * Q)) (rand : nat -> Z) (n0 : nat)
  (dept_string : string) (c : catalog) (g : graph) (d : data) :
  make_json list_set layout_sugiyama rand n0 dept_string c g = Some d ->
  let sg := make_subgraph list_set dept_string g in
  let colors := fst (department_colors rand n0 (map dept_of (vs_name sg))) in
  traverse (node_output (get_sugiyama_layout layout_sugiyama sg) colors c)
           (enumerate (vs_name sg)) = Some (nodes d) /\
  traverse (edge_output colors (vs_name sg)
              (List.last (map Some (nodes d)) None))
           (enumerate (es sg)) = Some (edges d).
Proof.
  intros H. cbv zeta. unfold make_json, bind in H.
  match type of H with
  | match ?t with _ => _ end = _ =>
      destruct t as [ns |] eqn:E1; [| discriminate]
  end.
  match type of H with
  | match ?t with _ => _ end = _ =>
      destruct t as [edgs |] eqn:E2; [| discriminate]
  end.
  injection H as <-. cbn [nodes edges]. split; [reflexivity | exact E2].
Qed.

(** C8.  In a document exported by make_json, the record of a subgraph node
    whose code is not a key of the store has the description "not offered
    in the last 4 semesters", an empty Course Site and an empty Requisite;
    its x and y are the row of the layout at its index, its colour is the
    one drawn for its department and its size is 10.0, and every node of
    the same department, known or not, has that colour and that size. *)
Theorem phantom_node_record {eo : EdgeOrder} (list_set : list nat -> list nat)
  (layout_sugiyama : graph -> list (Q * Q)) (rand : nat -> Z) (n0 : nat)
  (dept_string : string) (c : catalog) (g : graph) (d : data)
  (i : nat) (name : string) :
  let sg := make_subgraph list_set dept_string g in
  let colors := fst (department_colors rand n0 (map dept_of (vs_name sg))) in
  make_json list_set layout_sugiyama rand n0 dept_string c g = Some d ->
  nth_error (vs_name sg) i = Some name ->
  ~ In name (keys c) ->
  exists xy rgb,
    nth_error (get_sugiyama_layout layout_sugiyama sg) i = Some xy /\
    lookup (dept_of name) colors = Some rgb /\
    nth_error (nodes d) i = Some (phantom_record i name xy rgb) /\
    forall j name' rec',
      nth_error (vs_name sg) j = Some name' ->
      dept_of name' = dept_of name ->
      nth_error (nodes d) j = Some rec' ->
      lookup "color" rec' = Some (VStr ("rgb" ++ str_rgb rgb)) /\
      lookup "size" rec' = Some (VFloat (10 # 1)%Q).
Proof.
  intros sg colors H E N.
  destruct (make_json_inv _ _ _ _ _ _ _ _ H) as [Hn _].
  fold sg in Hn. fold colors in Hn.
  assert (Same : forall j name' rec',
            nth_error (vs_name sg) j = Some name' ->
            nth_error (nodes d) j = Some rec' ->
            node_output (get_sugiyama_layout layout_sugiyama sg) colors c
              (j, name') = Some rec').
  { intros j name' rec' Hj Hr.
    destruct (traverse_nth _ _ _ j (j, name') Hn (enumerate_nth _ _ _ Hj))
      as [r [Hout Hr']].
    congruence. }
  destruct (traverse_nth _ _ _ i (i, name) Hn (enumerate_nth _ _ _ E))
    as [rec [Hrec Hi]].
  apply lookup_None_iff in N.
  destruct (node_output_phantom _ _ _ _ _ _ N Hrec) as [xy [rgb [Hx [Hc ->]]]].
  exists xy, rgb.
  split; [exact Hx |]. split; [exact Hc |]. split; [exact Hi |].
  intros j name' rec' Hj Hd Hr.
  apply (Same j name' rec' Hj) in Hr. apply node_output_shape in Hr.
  destruct Hr as [_ [_ [xy' [rgb' [_ [Hc' [_ [_ [Hcol Hsize]]]]]]]]].
  rewrite Hd, Hc in Hc'. injection Hc' as <-.
  split; [exact Hcol | exact Hsize].
Qed.

Example phantom_graph_built :
  get_prereqs phantom_store = Some [("ECON-999", "ECON-301")] /\
  make_course_graph phantom_store [("ECON-999", "ECON-301")] =
    Some phantom_graph.
Proof. split; reflexivity. Qed.

Lemma phantom_node_record_witness :
  make_json list_set_nodup layout_row rand_mod 0 "ECON" phantom_store
    phantom_graph = Some phantom_doc /\
  exists xy rgb,
    nth_error (nodes phantom_doc) 1 =
      Some (phantom_record 1 "ECON-999" xy rgb).
Proof.
  assert (H : make_json list_set_nodup layout_row rand_mod 0 "ECON"
                phantom_store phantom_graph = Some phantom_doc)
    by (vm_compute; reflexivity).
  split; [exact H |].
  assert (N : ~ In "ECON-999" (keys phantom_store))
    by (simpl; intros [E | [E | []]]; discriminate).
  destruct (phantom_node_record list_set_nodup layout_row rand_mod 0 "ECON"
              phantom_store phantom_graph phantom_doc 1 "ECON-999"
              H eq_refl N) as [xy [rgb [_ [_ [Hn _]]]]].
  exists xy, rgb. exact Hn.
Defined.

(** *** The ids of the exported records *)

Lemma last_map_Some {X} (l : list X) (x : X) :
  List.last (map Some l) None = Some x -> In x l.
Proof.
  induction l as [| a l IH]; simpl; [discriminate |].
  destruct l as [| b l]; simpl in *.
  - intros [= <-]. now left.
  - intros H. right. now apply IH.
Qed.

(** In every exported document the edge at index [j] has the id
    6 + 2 * j, whatever the number of nodes: the length taken on line 413
    is that of the last node record, which has seven entries. *)
Lemma edge_id_formula {eo : EdgeOrder} (list_set : list nat -> list nat)
  (layout_sugiyama : graph -> list (Q * Q)) (rand : nat -> Z) (n0 : nat)
  (dept_string : string) (c : catalog) (g : graph) (d : data)
  (j : nat) (e : odict) :
  make_json list_set layout_sugiyama rand n0 dept_string c g = Some d ->
  nth_error (edges d) j = Some e ->
  lookup "id" e = Some (VStr (str_int (6 + 2 * Z.of_nat j))).
Proof.
  intros H E. destruct (make_json_inv _ _ _ _ _ _ _ _ H) as [Hn He].
  destruct (traverse_nth_inv _ _ _ _ _ He E) as [[j' [s t]] [Ha Hout]].
  apply enumerate_nth_inv in Ha. simpl in Ha. destruct Ha as [-> _].
  unfold edge_output, bind in Hout.
  destruct (nth_error _ t) as [tname |]; [| discriminate].
  destruct (lookup (dept_of tname) _) as [rgb |]; [| discriminate].
  destruct (List.last _ None) as [n |] eqn:L; [| discriminate].
  apply last_map_Some in L.
  destruct (traverse_all _ _ _ _ Hn L) as [[i name] [_ Hnode]].
  apply node_output_shape in Hnode. destruct Hnode as [Len _].
  injection Hout as <-. rewrite Len. reflexivity.
Qed.

(** In every exported document the id of the node at index [i] is the text
    of the pair of [i] and the node's name. *)
Lemma node_id_formula {eo : EdgeOrder} (list_set : list nat -> list nat)
  (layout_sugiyama : graph -> list (Q * Q)) (rand : nat -> Z) (n0 : nat)
  (dept_string : string) (c : catalog) (g : graph) (d : data)
  (i : nat) (rec : odict) :
  make_json list_set layout_sugiyama rand n0 dept_string c g = Some d ->
  nth_error (nodes d) i = Some rec ->
  exists name,
    nth_error (vs_name (make_subgraph list_set dept_string g)) i = Some name /\
    lookup "id" rec = Some (VStr (str_node i name)).
Proof.
  intros H E. destruct (make_json_inv _ _ _ _ _ _ _ _ H) as [Hn _].
  destruct (traverse_nth_inv _ _ _ _ _ Hn E) as [[i' name] [Ha Hout]].
  apply enumerate_nth_inv in Ha. simpl in Ha. destruct Ha as [-> Ha].
  exists name. split; [exact Ha |].
  apply node_output_shape in Hout. tauto.
Qed.

(** The text of a pair is the text of no integer. *)
Lemma str_node_not_int (i : nat) (name : string) (z : Z) :
  str_node i name <> str_int z.
Proof.
  unfold str_node, str_int. simpl.
  destruct (Z.to_int z) as [u | u]; destruct u; simpl; discriminate.
Qed.

(** C1 on the code.  The ECON subgraph of a store of three courses has 3
    nodes and 2 edges; the edges at index 0 and 1 get the ids "6" and "8",
    not "2" and "4". *)
Theorem edge_ids_three_nodes :
  exists d,
    export_department "ECON" econ_store = Some d /\
    List.length (nodes d) = 3 /\
    ids (edges d) = [Some (VStr "6"); Some (VStr "8")] /\
    ids (edges d) <>
      [Some (VStr (str_int (3 - 1 + 2 * 0)));
       Some (VStr (str_int (3 - 1 + 2 * 1)))].
Proof.
  eexists. split; [vm_compute; reflexivity |].
  split; [reflexivity |]. split; [reflexivity |].
  vm_compute. discriminate.
Qed.

(** C4 on the code.  In the same document the ids of the three nodes are
    the texts of the pairs (0, 'ECON-101'), (1, 'ECON-201') and
    (2, 'ECON-301'), not "0", "1" and "2". *)
Theorem node_ids_are_pair_texts :
  exists d,
    export_department "ECON" econ_store = Some d /\
    ids (nodes d) =
      [Some (VStr "(0, 'ECON-101')"); Some (VStr "(1, 'ECON-201')");
       Some (VStr "(2, 'ECON-301')")] /\
    ids (nodes d) <>
      [Some (VStr (str_nat 0)); Some (VStr (str_nat 1));
       Some (VStr (str_nat 2))] /\
    ids (edges d) = [Some (VStr "6"); Some (VStr "8")] /\
    map (lookup "source") (edges d) = [Some (VStr "0"); Some (VStr "1")].
Proof.
  eexists. split; [vm_compute; reflexivity |].
  split; [reflexivity |]. split; [vm_compute; discriminate |].
  split; reflexivity.
Qed.

(** *** make_json returns a document *)

Lemma lookup_dict_set {V} (k k' : string) (v : V) (d : list (string * V)) :
  lookup k' (dict_set k v d) = if String.eqb k' k then Some v else lookup k' d.
Proof.
  induction d as [| [a w] d IH]; simpl.
  - reflexivity.
  - destruct (String.eqb_spec k a) as [-> | Hk]; simpl.
    + destruct (String.eqb_spec k' a); reflexivity.
    + rewrite IH. destruct (String.eqb_spec k' a) as [-> | Ha];
        [| reflexivity].
      destruct (String.eqb_spec a k); [congruence | reflexivity].
Qed.

Lemma department_colors_fold (rand : nat -> Z) (l : list string)
  (st : list (string * (Z * Z * Z)) * nat) (x : string) :
  In x l \/ In x (keys (fst st)) ->
  exists rgb,
    lookup x (fst (fold_left (fun st dept =>
                                let '(rgb, n') := get_rgb rand (snd st) in
                                (dict_set dept rgb (fst st), n')) l st))
    = Some rgb.
Proof.
  revert st. induction l as [| a l IH]; intros st H; simpl.
  - destruct H as [[] | H]. now apply In_keys_lookup.
  - apply IH. simpl. destruct H as [[-> | H] | H]; [right | now left | right].
    + eapply lookup_Some_In. rewrite lookup_dict_set, String.eqb_refl.
      reflexivity.
    + destruct (In_keys_lookup _ _ H) as [v Hv].
      destruct (String.eqb_spec x a) as [-> | Hx].
      * eapply lookup_Some_In. rewrite lookup_dict_set, String.eqb_refl.
        reflexivity.
      * eapply lookup_Some_In. rewrite lookup_dict_set.
        destruct (String.eqb_spec x a); [contradiction | exact Hv].
Qed.

Lemma department_colors_cover (rand : nat -> Z) (n0 : nat)
  (l : list string) (x : string) :
  In x l -> exists rgb, lookup x (fst (department_colors rand n0 l)) = Some rgb.
Proof.
  intros H. unfold department_colors. apply department_colors_fold.
  now left.
Qed.

Lemma traverse_total {X Y} (f : X -> option Y) (l : list X) :
  (forall a, In a l -> exists b, f a = Some b) ->
  exists r, traverse f l = Some r /\ List.length r = List.length l.
Proof.
  induction l as [| x l IH]; intros H; simpl.
  - exists []. split; reflexivity.
  - destruct (H x (or_introl eq_refl)) as [b ->].
    destruct IH as [r [-> Hr]]; [intros; apply H; now right |].
    exists (b :: r). simpl. split; [reflexivity | congruence].
Qed.

Lemma In_enumerate {X} (l : list X) (p : nat * X) :
  In p (enumerate l) -> nth_error l (fst p) = Some (snd p).
Proof.
  intros H. apply In_nth_error in H. destruct H as [i H].
  apply enumerate_nth_inv in H. destruct H as [-> H]. exact H.
Qed.

Lemma position_lt (x : nat) (l : list nat) (a : nat) :
  position x l = Some a -> a < List.length l.
Proof.
  revert a. induction l as [| y l IH]; intros a; simpl; [discriminate |].
  destruct (x =? y)%nat.
  - intros [= <-]. lia.
  - destruct (position x l) as [b |]; [| discriminate].
    intros [= <-]. specialize (IH b eq_refl). lia.
Qed.

Lemma induced_subgraph_edges {eo : EdgeOrder} (g : graph) (vids : list nat) (s t : nat) :
  In (s, t) (es (induced_subgraph g vids)) ->
  s < vcount (induced_subgraph g vids) /\
  t < vcount (induced_subgraph g vids).
Proof.
  unfold induced_subgraph, vcount. simpl. rewrite length_map.
  intros H. apply (Permutation_in _ (list_edges_perm _ _ _)) in H.
  apply in_flat_map in H. destruct H as [e [_ H]].
  destruct (position (fst e) _) as [a |] eqn:Pa; [| contradiction].
  destruct (position (snd e) _) as [b |] eqn:Pb; [| contradiction].
  destruct H as [[= <- <-] | []].
  split; eapply position_lt; eassumption.
Qed.

Lemma last_map_Some_cons {X} (l : list X) :
  l <> [] -> exists x, List.last (map Some l) None = Some x.
Proof.
  induction l as [| a l IH]; [congruence |]. intros _.
  destruct l as [| b l]; [simpl; eauto |].
  destruct IH as [x Hx]; [discriminate |]. exists x. exact Hx.
Qed.

(** The export returns a document, with one record per node and per edge
    of the subgraph, as soon as the layout has a row for every vertex. *)
Lemma make_json_returns {eo : EdgeOrder} (list_set : list nat -> list nat)
  (layout_sugiyama : graph -> list (Q * Q)) (rand : nat -> Z) (n0 : nat)
  (dept_string : string) (c : catalog) (g : graph) :
  let sg := make_subgraph list_set dept_string g in
  vcount sg <= List.length (layout_sugiyama sg) ->
  exists d,
    make_json list_set layout_sugiyama rand n0 dept_string c g = Some d /\
    List.length (nodes d) = vcount sg /\
    List.length (edges d) = List.length (es sg).
Proof.
  intros sg L. unfold make_json. fold sg.
  set (colors := fst (department_colors rand n0 (map dept_of (vs_name sg)))).
  assert (Col : forall i name, nth_error (vs_name sg) i = Some name ->
                exists rgb, lookup (dept_of name) colors = Some rgb).
  { intros i name E. apply department_colors_cover.
    apply in_map. eapply nth_error_In; eassumption. }
  destruct (traverse_total
              (node_output (get_sugiyama_layout layout_sugiyama sg) colors c)
              (enumerate (vs_name sg))) as [ns [Hns Lns]].
  { intros [i name] H. apply In_enumerate in H. cbn [fst snd] in H.
    assert (Hi : i < vcount sg) by (apply nth_error_Some; congruence).
    destruct (nth_error (get_sugiyama_layout layout_sugiyama sg) i)
      as [xy |] eqn:X.
    - destruct (Col i name H) as [rgb R].
      unfold node_output, bind. rewrite X, R.
      destruct (lookup name c); eauto.
    - apply nth_error_None in X. unfold get_sugiyama_layout in X.
      rewrite length_firstn in X. lia. }
  assert (Len : List.length ns = vcount sg).
  { rewrite Lns. unfold enumerate. rewrite length_combine, length_seq.
    unfold vcount. lia. }
  destruct (traverse_total
              (edge_output colors (vs_name sg) (List.last (map Some ns) None))
              (enumerate (es sg))) as [edgs [Hes Les]].
  { intros [j [s t]] H. apply In_enumerate in H. cbn [fst snd] in H.
    apply nth_error_In in H.
    assert (Ht : t < vcount sg)
      by (unfold sg, make_subgraph in *;
          eapply induced_subgraph_edges; exact H).
    destruct (nth_error (vs_name sg) t) as [tname |] eqn:T.
    - destruct (Col t tname T) as [rgb R].
      destruct (last_map_Some_cons ns) as [n Hn].
      { intros ->. cbn [List.length] in Len. lia. }
      unfold edge_output, bind. rewrite T, R, Hn. eauto.
    - apply nth_error_None in T. unfold vcount in Ht. lia. }
  unfold bind. rewrite Hns, Hes. eexists. split; [reflexivity |].
  cbn [nodes edges]. split; [exact Len |].
  rewrite Les. unfold enumerate. rewrite length_combine, length_seq.
  apply Nat.min_id.
Qed.

(** * Further properties of the code *)

(** ** get_prereqs: failure, and where its edges come from *)

Lemma nums_of_None {ops : StrOps} (ks : list string) :
  nums_of ks = None <->
  exists key, In key ks /\ (num_of key = None \/ num_of key = Some "").
Proof.
  induction ks as [| k ks IH]; simpl.
  - split; [discriminate | intros [key [[] _]]].
  - destruct (num_of k) as [n |] eqn:N.
    + destruct n as [| a n]; simpl.
      * split; [intros _; exists k; auto | reflexivity].
      * destruct (nums_of ks) as [l |].
        -- split; [discriminate |].
           intros [key [[<- | Hk] H]].
           ++ rewrite N in H. destruct H; discriminate.
           ++ assert (X : Some l = None) by (apply IH; eauto).
              discriminate.
        -- split; [| reflexivity]. intros _.
           destruct (proj1 IH eq_refl) as [key [Hk H]]. exists key. auto.
    + split; [intros _; exists k; auto | reflexivity].
Qed.

(** X1.  get_prereqs raises exactly when some key of the store has no
    separator "-", or nothing between its first separator and the next
    (or the end): then [i.split('-')[1]] or its [[0]] does not exist. *)
Theorem get_prereqs_fails_iff {ops : StrOps} (c : catalog) :
  get_prereqs c = None <->
  exists key, In key (keys c) /\ (num_of key = None \/ num_of key = Some "").
Proof.
  rewrite <- nums_of_None. unfold get_prereqs.
  destruct (nums_of (keys c)); split; congruence.
Qed.

Example get_prereqs_no_separator :
  get_prereqs [("ECON-101", mk ""); ("ECON101", mk "")] = None /\
  get_prereqs [("ECON-", mk "")] = None /\
  get_prereqs [("ECON--101", mk "")] = None.
Proof. repeat split. Qed.

Lemma cursor_after_dept (is_dept : string -> bool) (own : string)
  (pre : list string) :
  cursor_after is_dept own pre = own \/
  (In (cursor_after is_dept own pre) pre /\
   is_dept (cursor_after is_dept own pre) = true).
Proof.
  unfold cursor_after. destruct (find is_dept (rev pre)) eqn:E; [| now left].
  right. apply find_some in E. rewrite <- in_rev in E. exact E.
Qed.

Lemma scan_words_origin {ops : StrOps} (depts nums : list string) (k own : string)
  (ws : list string) (acc : list edge) (e : edge) :
  In e (scan_words depts nums k own ws acc) ->
  In e acc \/
  exists d w, (d = own \/ (In d ws /\ In (upper d) depts)) /\
              In w ws /\ In w nums /\ e = (upper d ++ "-" ++ w, k).
Proof.
  rewrite scan_words_emitted, in_app_iff.
  intros [H | H]; [now left | right].
  apply In_emitted in H. destruct H as [n [w [E [N ->]]]].
  exists (cursor_after (fun w => mem (upper w) depts) own (firstn (S n) ws)), w.
  split.
  - destruct (cursor_after_dept (fun w => mem (upper w) depts) own
                (firstn (S n) ws)) as [C | [C D]]; [left; exact C | right].
    split; [| now apply mem_In].
    rewrite <- (firstn_skipn (S n) ws) at 2. apply in_or_app. left. exact C.
  - split; [eapply nth_error_In; eassumption |].
    split; [now apply mem_In | reflexivity].
Qed.

Lemma fold_course_step_origin {ops : StrOps} (depts nums : list string) (c : catalog)
  (ks : list string) (acc : list edge) (e : edge) :
  In e (fold_left (course_step depts nums c) ks acc) ->
  In e acc \/
  exists k details d w,
    In k ks /\ lookup k c = Some details /\ description details <> "" /\
    (d = dept_of k \/
     (In d (split_words (req_line_of (description details))) /\
      In (upper d) depts)) /\
    In w (split_words (req_line_of (description details))) /\
    In w nums /\ e = (upper d ++ "-" ++ w, k).
Proof.
  revert acc. induction ks as [| k ks IH]; intros acc; simpl; [now left |].
  intros H. apply IH in H. destruct H as [H | [k' [dt [d [w H]]]]].
  - unfold course_step in H.
    destruct (lookup k c) as [details |] eqn:L; [| now left].
    destruct (description details) as [| a r] eqn:D; [now left |].
    apply scan_words_origin in H.
    destruct H as [H | [d [w H]]]; [now left | right].
    exists k, details, d, w. rewrite D.
    split; [now left |]. split; [exact L |].
    split; [discriminate | exact H].
  - right. exists k', dt, d, w. tauto.
Qed.

(** Where an edge of get_prereqs comes from. *)
Lemma get_prereqs_origin {ops : StrOps} (c : catalog) (l : list edge) (e : edge) :
  get_prereqs c = Some l -> In e l ->
  exists nums k details d w,
    nums_of (keys c) = Some nums /\
    In k (keys c) /\ lookup k c = Some details /\
    description details <> "" /\
    (d = dept_of k \/
     (In d (split_words (req_line_of (description details))) /\
      In (upper d) (depts_of (keys c)))) /\
    In w (split_words (req_line_of (description details))) /\
    In w nums /\ e = (upper d ++ "-" ++ w, k).
Proof.
  unfold get_prereqs. destruct (nums_of (keys c)) as [nums |]; [| discriminate].
  intros [= <-] H. apply fold_course_step_origin in H.
  destruct H as [[] | [k [dt [d [w H]]]]].
  exists nums, k, dt, d, w. tauto.
Qed.

(** X2.  Every required code returned by get_prereqs, of a phantom node as
    well, is a department code of the store (the upper-cased prefix of one
    of its keys), a hyphen and the word it was emitted for; that department
    code is the department part of the required code whenever it holds no
    hyphen. *)
Theorem required_department_known {ops : StrOps} (c : catalog)
  (l : list edge) :
  get_prereqs c = Some l ->
  forall e, In e l ->
  exists d w,
    fst e = upper d ++ "-" ++ w /\
    In (upper d) (depts_of (keys c)) /\
    (no_dash (upper d) = true -> dept_of (fst e) = upper d).
Proof.
  intros G e H.
  destruct (get_prereqs_origin c l e G H)
    as [nums [k [dt [d [w [_ [Hk [_ [_ [Hd [Hw [_ ->]]]]]]]]]]]].
  exists d, w. cbn [fst]. split; [reflexivity |]. split.
  - destruct Hd as [-> | [_ Hd]]; [| exact Hd].
    unfold depts_of. apply (in_map (fun i => upper (dept_of i))). exact Hk.
  - intros Nd.
    apply (proj1 (num_of_code (upper d) w Nd (split_words_no_dash _ _ Hw))).
Qed.

Lemma required_department_known_witness :
  exists d w,
    "ECON-999" = upper d ++ "-" ++ w /\
    In (upper d) (depts_of (keys phantom_store)) /\
    (no_dash (upper d) = true -> dept_of "ECON-999" = upper d).
Proof.
  assert (G : get_prereqs phantom_store = Some [("ECON-999", "ECON-301")])
    by (vm_compute; reflexivity).
  apply (required_department_known phantom_store _ G
           ("ECON-999", "ECON-301")).
  simpl. tauto.
Defined.

(** X3.  Only courses with a non-empty description require anything: the
    requiring course of every edge has details with a description that is
    not the empty string. *)
Theorem requiring_course_described {ops : StrOps} (c : catalog) (l : list edge) :
  get_prereqs c = Some l ->
  forall e, In e l ->
  exists details,
    lookup (snd e) c = Some details /\ description details <> "".
Proof.
  intros G e H.
  destruct (get_prereqs_origin c l e G H)
    as [nums [k [dt [d [w [_ [_ [L [D [_ [_ [_ ->]]]]]]]]]]]].
  exists dt. split; assumption.
Qed.

Lemma requiring_course_described_witness :
  exists details,
    lookup "ECON-301" phantom_store = Some details /\
    description details <> "".
Proof.
  assert (G : get_prereqs phantom_store = Some [("ECON-999", "ECON-301")])
    by (vm_compute; reflexivity).
  apply (requiring_course_described phantom_store _ G
           ("ECON-999", "ECON-301")).
  simpl. tauto.
Defined.

(** ** The words of a description *)

Lemma map_chars_compose (f g : ascii -> ascii) (s : string) :
  map_chars g (map_chars f s) = map_chars (fun c => g (f c)) s.
Proof. induction s; simpl; congruence. Qed.

Lemma spaced_split_on (sep : ascii -> bool) (s : string) :
  spaced (split_on sep s) =
  map_chars (fun c => if sep c then " "%char else c) s ++ " ".
Proof.
  induction s as [| c r IH]; [reflexivity |].
  simpl. destruct (sep c).
  - simpl. now rewrite IH.
  - destruct (split_on sep r) as [| p ps] eqn:E.
    + now apply split_on_nonempty in E.
    + simpl in *. now rewrite IH.
Qed.

Lemma split_on_map_chars (sep sep' : ascii -> bool) (f : ascii -> ascii)
  (s : string) :
  (forall c, sep (f c) = sep' c) ->
  (forall c, sep' c = false -> f c = c) ->
  split_on sep (map_chars f s) = split_on sep' s.
Proof.
  intros H1 H2. induction s as [| c r IH]; [reflexivity |].
  simpl. rewrite H1, IH. destruct (sep' c) eqn:E; [reflexivity |].
  now rewrite (H2 c E).
Qed.

Lemma split_on_app_sep_end (sep : ascii -> bool) (a : ascii) (t : string) :
  sep a = true ->
  split_on sep (t ++ String a "") = (split_on sep t ++ [""])%list.
Proof.
  intros Ha. induction t as [| c r IH]; simpl.
  - now rewrite Ha.
  - rewrite IH. destruct (sep c); [reflexivity |].
    destruct (split_on sep r) as [| p ps] eqn:E; [| reflexivity].
    now apply split_on_nonempty in E.
Qed.

Lemma token_sep_normalised (c : ascii) :
  let f := fun c => if is_char nbsp c then " "%char else c in
  let g := fun c => if is_char newline c || is_char "." c
                    then " "%char else c in
  (is_char " " (g (f c)) || is_char "-" (g (f c)) || is_char "," (g (f c))
   || is_char "/" (g (f c)) || is_char ";" (g (f c))
   || is_char "." (g (f c))) = token_sep c /\
  (token_sep c = false -> g (f c) = c).
Proof.
  destruct c as [[] [] [] [] [] [] [] []]; split; try reflexivity;
    discriminate.
Qed.

(** X4.  The words that get_prereqs scans for a non-empty description are
    the pieces of the description cut at every space, hyphen, comma, slash,
    semicolon, period, newline and non-breaking space, followed by one empty
    word: cutting into sentences and joining them again with spaces only
    turns the sentence ends into word ends. *)
Theorem words_of_description {ops : StrOps} (a : ascii) (r : string) :
  split_words (req_line_of (String a r)) =
  (split_on token_sep (String a r) ++ [""])%list.
Proof.
  unfold req_line_of. rewrite fold_req_line.
  change ("" ++ spaced ?l) with (spaced l).
  unfold split_sentences, replace_nbsp, split_words.
  rewrite spaced_split_on, map_chars_compose.
  rewrite split_on_app_sep_end by reflexivity. f_equal.
  apply split_on_map_chars; intros c; apply (token_sep_normalised c).
Qed.

(** ** make_course_graph: vertices and edges *)

Lemma index_of_nth (x : string) (l : list string) (i : nat) :
  index_of x l = Some i -> nth_error l i = Some x.
Proof.
  revert i. induction l as [| y r IH]; intros i; simpl; [discriminate |].
  destruct (String.eqb_spec x y) as [-> | Hxy].
  - intros [= <-]. reflexivity.
  - destruct (index_of x r) as [j |]; [| discriminate].
    intros [= <-]. simpl. now apply IH.
Qed.

Lemma resolve_edges_nth (names : list string) (l : list edge)
  (r : list (nat * nat)) :
  resolve_edges names l = Some r ->
  List.length r = List.length l /\
  forall i a b, nth_error l i = Some (a, b) ->
    exists u v, nth_error r i = Some (u, v) /\
                nth_error names u = Some a /\ nth_error names v = Some b.
Proof.
  revert r. induction l as [| [a b] l IH]; intros r; simpl.
  - intros [= <-]. split; [reflexivity |]. intros [| i] ? ?; discriminate.
  - destruct (index_of a names) as [u |] eqn:U; [| discriminate].
    destruct (index_of b names) as [v |] eqn:V; [| discriminate].
    destruct (resolve_edges names l) as [r' |]; [| discriminate].
    intros [= <-]. destruct (IH r' eq_refl) as [Len Nth].
    split; [simpl; congruence |].
    intros [| i] a' b' E; simpl in *.
    + injection E as <- <-. exists u, v.
      split; [reflexivity |]. split; now apply index_of_nth.
    + now apply Nth.
Qed.

(** X5.  make_course_graph always returns a graph, for every store and
    edge list.  Its vertex names are the keys of the store followed by the
    endpoints that are not keys, so there are as many of them as the vertex
    count computed on line 257, and as a set they are the known codes united
    with the edge endpoints. *)
Theorem make_course_graph_vertices (c : catalog) (l : list edge) :
  exists g, make_course_graph c l = Some g /\
            vs_name g = (keys c ++ extra_courses c l)%list /\
            vcount g = List.length (extra_courses c l) + List.length c /\
            forall x, In x (vs_name g) <-> In x (keys c) \/ In x (chain l).
Proof.
  destruct (make_course_graph_names c l) as [g [G [N S]]].
  exists g. split; [exact G |]. split; [exact N |]. split; [| exact S].
  unfold vcount. rewrite N. unfold names_of_courses, keys.
  rewrite length_app, length_map. apply Nat.add_comm.
Qed.

(** X6.  The edges of the graph are the edges of the list, in order and
    with repetitions: the i-th edge joins a vertex named as the required
    code to a vertex named as the requiring code. *)
Theorem make_course_graph_edges (c : catalog) (l : list edge) (g : graph) :
  make_course_graph c l = Some g ->
  List.length (es g) = List.length l /\
  forall i a b, nth_error l i = Some (a, b) ->
    exists u v, nth_error (es g) i = Some (u, v) /\
                nth_error (vs_name g) u = Some a /\
                nth_error (vs_name g) v = Some b.
Proof.
  unfold make_course_graph.
  destruct (resolve_edges (names_of_courses c l) l) as [r |] eqn:R;
    [| discriminate].
  intros [= <-]. simpl. now apply resolve_edges_nth.
Qed.

Lemma make_course_graph_edges_witness :
  exists u v, nth_error (es phantom_graph) 0 = Some (u, v) /\
              nth_error (vs_name phantom_graph) u = Some "ECON-999" /\
              nth_error (vs_name phantom_graph) v = Some "ECON-301".
Proof.
  apply (proj2 (make_course_graph_edges phantom_store
                  [("ECON-999", "ECON-301")] phantom_graph eq_refl)
           0 "ECON-999" "ECON-301" eq_refl).
Defined.

Lemma count_occ_app_string (l1 l2 : list string) (x : string) :
  count_occ string_dec (l1 ++ l2) x =
  count_occ string_dec l1 x + count_occ string_dec l2 x.
Proof. apply count_occ_app. Qed.

Lemma index_of_app (x : string) (l1 l2 : list string) :
  In x l1 -> index_of x (l1 ++ l2) = index_of x l1.
Proof.
  induction l1 as [| y r IH]; simpl; [intros [] |].
  destruct (String.eqb_spec x y); [reflexivity |].
  intros [E | H]; [congruence |]. now rewrite IH.
Qed.

(** X7.  When the keys of the store are distinct, a known course has
    exactly one vertex, at its position among the keys, however often it
    occurs in the edge list; and when every endpoint is a known course the
    vertices are just the keys. *)
Theorem known_course_one_vertex (c : catalog) (l : list edge) (g : graph) :
  NoDup (keys c) ->
  make_course_graph c l = Some g ->
  (forall k, In k (keys c) ->
     count_occ string_dec (vs_name g) k = 1 /\
     index_of k (vs_name g) = index_of k (keys c)) /\
  ((forall x, In x (chain l) -> In x (keys c)) -> vs_name g = keys c).
Proof.
  intros ND. unfold make_course_graph.
  destruct (resolve_edges (names_of_courses c l) l) as [r |];
    [| discriminate].
  intros [= <-]. simpl. unfold names_of_courses. split.
  - intros k Hk. split.
    + rewrite count_occ_app_string.
      rewrite (NoDup_count_occ' string_dec) in ND. rewrite (ND k Hk).
      assert (N : ~ In k (extra_courses c l)).
      { unfold extra_courses. rewrite filter_In, negb_true_iff, mem_false.
        tauto. }
      apply (count_occ_not_In string_dec) in N. rewrite N. reflexivity.
    + now apply index_of_app.
  - intros H. assert (E : extra_courses c l = []).
    { unfold extra_courses. induction (chain l) as [| x xs IH]; simpl;
        [reflexivity |].
      assert (M : mem x (keys c) = true)
        by (apply mem_In, H; now left).
      rewrite M. simpl. apply IH. intros y Hy. apply H. now right. }
    rewrite E. apply app_nil_r.
Qed.

Lemma known_course_one_vertex_witness :
  count_occ string_dec (vs_name phantom_graph) "ECON-301" = 1 /\
  index_of "ECON-301" (vs_name phantom_graph) =
    index_of "ECON-301" (keys phantom_store).
Proof.
  assert (ND : NoDup (keys phantom_store)).
  { apply (NoDup_count_occ' string_dec). intros x Hx.
    simpl in Hx. destruct Hx as [<- | [<- | []]]; reflexivity. }
  apply (proj1 (known_course_one_vertex phantom_store
                  [("ECON-999", "ECON-301")] phantom_graph ND eq_refl)
           "ECON-301").
  simpl. tauto.
Defined.

(** ** make_subgraph: which vertices and edges it keeps *)

Lemma In_enumerate_iff {X} (l : list X) (p : nat * X) :
  In p (enumerate l) <-> nth_error l (fst p) = Some (snd p).
Proof.
  split; [apply In_enumerate |].
  destruct p as [i a]. simpl. intros H.
  eapply nth_error_In. apply enumerate_nth. exact H.
Qed.

Lemma In_neighborhood (g : graph) (i j : nat) :
  In i (neighborhood g j) <-> i = j \/ adjacent g i j.
Proof.
  unfold neighborhood, adjacent. simpl. rewrite in_flat_map. split.
  - intros [H | [e [He H]]]; [left; congruence | right].
    exists e. split; [exact He |]. apply in_app_or in H.
    destruct H as [H | H].
    + destruct (Nat.eqb_spec (fst e) j); [| contradiction].
      destruct H as [<- | []]. left. tauto.
    + destruct (Nat.eqb_spec (snd e) j); [| contradiction].
      destruct H as [<- | []]. right. tauto.
  - intros [-> | [e [He H]]]; [now left | right].
    exists e. split; [exact He |]. apply in_or_app.
    destruct H as [[H1 H2] | [H1 H2]].
    + left. rewrite H1, Nat.eqb_refl. left. exact H2.
    + right. rewrite H1, Nat.eqb_refl. left. exact H2.
Qed.

(** The vertices [make_subgraph] hands to [list(set(...))]. *)
Lemma In_relevant (d : string) (g : graph) (i : nat) :
  In i (List.concat
          (map (fun p => neighborhood g (fst p))
             (filter (fun p => String.eqb (dept_of (snd p)) d)
                (enumerate (vs_name g))))) <->
  exists j, in_department g d j /\ (i = j \/ adjacent g i j).
Proof.
  rewrite in_concat. split.
  - intros [nb [Hnb Hi]]. apply in_map_iff in Hnb.
    destruct Hnb as [[j name] [<- Hp]]. apply filter_In in Hp.
    destruct Hp as [Hp Hd]. apply In_enumerate_iff in Hp. simpl in *.
    apply String.eqb_eq in Hd. exists j. split.
    + exists name. tauto.
    + now apply In_neighborhood.
  - intros [j [[name [Hn Hd]] H]].
    exists (neighborhood g j). split; [| now apply In_neighborhood].
    apply in_map_iff. exists (j, name). split; [reflexivity |].
    apply filter_In. split.
    + now apply In_enumerate_iff.
    + simpl. now apply String.eqb_eq.
Qed.

Lemma In_kept (f : list nat -> list nat) (d : string) (g : graph) (i : nat) :
  set_listing f ->
  In i (filter
          (fun i => memn i
             (f (List.concat
                   (map (fun p => neighborhood g (fst p))
                      (filter (fun p => String.eqb (dept_of (snd p)) d)
                         (enumerate (vs_name g)))))))
          (seq 0 (vcount g))) <->
  i < vcount g /\ exists j, in_department g d j /\ (i = j \/ adjacent g i j).
Proof.
  intros F. rewrite filter_In, in_seq, memn_In, (proj2 (F _) i), In_relevant.
  split; intros [H1 H2]; split; (lia || assumption).
Qed.

Lemma nth_error_nth_default (l : list string) (i : nat) :
  i < List.length l -> nth_error l i = Some (nth i l "").
Proof.
  revert i. induction l as [| x l IH]; intros i H; simpl in *; [lia |].
  destruct i; [reflexivity |]. apply IH. lia.
Qed.

(** X8.  The names of the subgraph of a department are exactly the names
    of the vertices that are of the department or joined by an edge, in
    either direction, to a vertex of the department: a course of the
    department is kept even without prerequisite relations, a course of
    another department only when it requires or is required by one of the
    department. *)
Theorem make_subgraph_vertices {eo : EdgeOrder} (f : list nat -> list nat) (d : string)
  (g : graph) :
  set_listing f ->
  forall name,
    In name (vs_name (make_subgraph f d g)) <->
    exists i, nth_error (vs_name g) i = Some name /\
              (in_department g d i \/
               exists j, in_department g d j /\ adjacent g i j).
Proof.
  intros F name. unfold make_subgraph, induced_subgraph. simpl.
  rewrite in_map_iff. split.
  - intros [i [Hn Hi]]. apply (In_kept f d g i F) in Hi.
    destruct Hi as [Lt [j [Hj Hij]]]. exists i. split.
    + rewrite <- Hn. now apply nth_error_nth_default.
    + destruct Hij as [-> | A]; [now left | right; eauto].
  - intros [i [Hn H]]. exists i. split.
    + assert (L : i < List.length (vs_name g))
        by (apply nth_error_Some; congruence).
      apply nth_error_nth_default in L. congruence.
    + apply (In_kept f d g i F). split.
      * apply nth_error_Some. congruence.
      * destruct H as [H | [j [Hj A]]]; [exists i; tauto | exists j; tauto].
Qed.

Lemma make_subgraph_vertices_witness :
  In "STAT-200" (vs_name (make_subgraph list_set_rev "ECON" small_graph)) <->
  exists i, nth_error (vs_name small_graph) i = Some "STAT-200" /\
            (in_department small_graph "ECON" i \/
             exists j, in_department small_graph "ECON" j /\
                       adjacent small_graph i j).
Proof.
  apply (make_subgraph_vertices list_set_rev "ECON" small_graph
           set_listing_rev "STAT-200").
Defined.

Lemma position_nth (x : nat) (l : list nat) (a : nat) :
  position x l = Some a -> nth_error l a = Some x.
Proof.
  revert a. induction l as [| y l IH]; intros a; simpl; [discriminate |].
  destruct (Nat.eqb_spec x y) as [-> | N].
  - intros [= <-]. reflexivity.
  - destruct (position x l) as [b |]; [| discriminate].
    intros [= <-]. simpl. now apply IH.
Qed.

Lemma position_In (x : nat) (l : list nat) :
  In x l -> exists a, position x l = Some a.
Proof.
  induction l as [| y l IH]; simpl; [intros [] |].
  destruct (Nat.eqb_spec x y); [eauto |].
  intros [E | H]; [congruence |]. destruct (IH H) as [a ->]. simpl. eauto.
Qed.

Lemma kept_name (g : graph) (kept : list nat) (u a : nat) (name : string) :
  position u kept = Some a ->
  nth_error (vs_name g) u = Some name ->
  nth_error (map (fun i => nth i (vs_name g) "") kept) a = Some name.
Proof.
  intros P N. apply position_nth in P.
  rewrite nth_error_map, P. simpl. f_equal.
  assert (L : u < List.length (vs_name g))
    by (apply nth_error_Some; congruence).
  apply nth_error_nth_default in L. congruence.
Qed.

(** X9.  No prerequisite relation of the department is lost: every edge of
    the course graph with an endpoint in the department is an edge of the
    subgraph, between vertices of the same names. *)
Theorem make_subgraph_keeps_department_edges {eo : EdgeOrder} (f : list nat -> list nat)
  (d : string) (g : graph) (u v : nat) (a b : string) :
  set_listing f ->
  In (u, v) (es g) ->
  nth_error (vs_name g) u = Some a ->
  nth_error (vs_name g) v = Some b ->
  dept_of a = d \/ dept_of b = d ->
  exists u' v',
    In (u', v') (es (make_subgraph f d g)) /\
    nth_error (vs_name (make_subgraph f d g)) u' = Some a /\
    nth_error (vs_name (make_subgraph f d g)) v' = Some b.
Proof.
  intros F E Ha Hb D. unfold make_subgraph, induced_subgraph. simpl.
  set (kept := filter _ (seq 0 (vcount g))).
  assert (Lu : u < vcount g) by (apply nth_error_Some; congruence).
  assert (Lv : v < vcount g) by (apply nth_error_Some; congruence).
  assert (Auv : adjacent g u v)
    by (exists (u, v); split; [exact E | right; split; reflexivity]).
  assert (Avu : adjacent g v u)
    by (exists (u, v); split; [exact E | left; split; reflexivity]).
  assert (Ku : In u kept).
  { apply (In_kept f d g u F). split; [exact Lu |].
    destruct D as [D | D].
    - exists u. split; [exists a; tauto | now left].
    - exists v. split; [exists b; tauto | now right]. }
  assert (Kv : In v kept).
  { apply (In_kept f d g v F). split; [exact Lv |].
    destruct D as [D | D].
    - exists u. split; [exists a; tauto | now right].
    - exists v. split; [exists b; tauto | now left]. }
  destruct (position_In u kept Ku) as [u' Pu].
  destruct (position_In v kept Kv) as [v' Pv].
  exists u', v'. split.
  - apply (Permutation_in _ (Permutation_sym (list_edges_perm _ _ _))).
    apply in_flat_map. exists (u, v). split; [exact E |].
    simpl. rewrite Pu, Pv. now left.
  - split; eapply kept_name; eassumption.
Qed.

Lemma make_subgraph_keeps_department_edges_witness :
  exists u' v',
    In (u', v') (es (make_subgraph list_set_rev "ECON" small_graph)) /\
    nth_error (vs_name (make_subgraph list_set_rev "ECON" small_graph)) u'
      = Some "ECON-201" /\
    nth_error (vs_name (make_subgraph list_set_rev "ECON" small_graph)) v'
      = Some "STAT-200".
Proof.
  apply (make_subgraph_keeps_department_edges list_set_rev "ECON" small_graph
           2 4 "ECON-201" "STAT-200" set_listing_rev).
  - simpl. tauto.
  - reflexivity.
  - reflexivity.
  - left. reflexivity.
Defined.

(** X10.  The subgraph invents no relation: each of its edges is an edge of
    the course graph between vertices of the same names, and it has at most
    as many vertices and edges as the course graph. *)
Theorem make_subgraph_edges_from_graph {eo : EdgeOrder} (f : list nat -> list nat)
  (d : string) (g : graph) :
  (forall u' v', In (u', v') (es (make_subgraph f d g)) ->
     exists u v a b,
       In (u, v) (es g) /\
       nth_error (vs_name g) u = Some a /\
       nth_error (vs_name g) v = Some b /\
       nth_error (vs_name (make_subgraph f d g)) u' = Some a /\
       nth_error (vs_name (make_subgraph f d g)) v' = Some b) /\
  vcount (make_subgraph f d g) <= vcount g /\
  List.length (es (make_subgraph f d g)) <= List.length (es g).
Proof.
  unfold make_subgraph, induced_subgraph, vcount. simpl.
  set (kept := filter _ (seq 0 _)). split; [| split].
  - intros u' v' H. apply (Permutation_in _ (list_edges_perm _ _ _)) in H.
    apply in_flat_map in H. destruct H as [[u v] [E H]].
    simpl in H.
    destruct (position u kept) as [a' |] eqn:Pu; [| contradiction].
    destruct (position v kept) as [b' |] eqn:Pv; [| contradiction].
    destruct H as [[= <- <-] | []].
    assert (Lu : u < List.length (vs_name g)).
    { apply position_nth, nth_error_In in Pu. unfold kept in Pu.
      apply filter_In in Pu. destruct Pu as [Pu _].
      apply in_seq in Pu. lia. }
    assert (Lv : v < List.length (vs_name g)).
    { apply position_nth, nth_error_In in Pv. unfold kept in Pv.
      apply filter_In in Pv. destruct Pv as [Pv _].
      apply in_seq in Pv. lia. }
    exists u, v, (nth u (vs_name g) ""), (nth v (vs_name g) "").
    split; [exact E |].
    split; [now apply nth_error_nth_default |].
    split; [now apply nth_error_nth_default |].
    split; eapply kept_name; try eassumption;
      now apply nth_error_nth_default.
  - rewrite length_map. unfold kept.
    etransitivity; [apply filter_length_le |]. now rewrite length_seq.
  - rewrite (Permutation_length (list_edges_perm _ _ _)).
    clear. induction (es g) as [| e l IH]; simpl; [lia |].
    rewrite length_app.
    destruct (position (fst e) kept); [| simpl; lia].
    destruct (position (snd e) kept); simpl; lia.
Qed.

Lemma make_subgraph_edges_from_graph_witness :
  exists u v a b,
    In (u, v) (es small_graph) /\
    nth_error (vs_name small_graph) u = Some a /\
    nth_error (vs_name small_graph) v = Some b /\
    nth_error (vs_name (make_subgraph list_set_nodup "ECON" small_graph)) 2
      = Some a /\
    nth_error (vs_name (make_subgraph list_set_nodup "ECON" small_graph)) 3
      = Some b.
Proof.
  apply (proj1 (make_subgraph_edges_from_graph list_set_nodup "ECON"
                  small_graph) 2 3).
  vm_compute. tauto.
Defined.

Lemma flat_map_nil {X Y} (f : X -> list Y) (l : list X) :
  (forall x, f x = []) -> flat_map f l = [].
Proof.
  intros H. induction l as [| a l IH]; simpl; [reflexivity |].
  now rewrite H, IH.
Qed.

Lemma filter_none {X} (p : X -> bool) (l : list X) :
  (forall x, In x l -> p x = false) -> filter p l = [].
Proof.
  induction l as [| a l IH]; intros H; simpl; [reflexivity |].
  rewrite (H a) by now left. apply IH. intros x Hx. apply H. now right.
Qed.

(** X11.  For a department that no vertex of the graph belongs to, the
    subgraph is the empty graph and make_json returns the document without
    nodes and edges, whatever the layout, the store and the random source;
    in particular the export of an unknown department does not fail. *)
Theorem unknown_department_empty {eo : EdgeOrder} (f : list nat -> list nat) (d : string)
  (g : graph) :
  set_listing f ->
  (forall name, In name (vs_name g) -> dept_of name <> d) ->
  make_subgraph f d g = empty_graph /\
  forall layout_sugiyama rand n0 c,
    make_json f layout_sugiyama rand n0 d c g = Some no_data.
Proof.
  intros F H.
  assert (E : make_subgraph f d g = empty_graph).
  { unfold make_subgraph, induced_subgraph, empty_graph.
    assert (K : filter
                  (fun i => memn i
                     (f (List.concat
                           (map (fun p => neighborhood g (fst p))
                              (filter
                                 (fun p => String.eqb (dept_of (snd p)) d)
                                 (enumerate (vs_name g)))))))
                  (seq 0 (vcount g)) = []).
    { apply filter_none. intros i _.
      destruct (memn i _) eqn:M; [| reflexivity].
      apply memn_In in M. apply (proj2 (F _) i), In_relevant in M.
      destruct M as [j [[name [Hn Hd]] _]].
      apply nth_error_In in Hn. now apply H in Hn. }
    rewrite K. simpl. f_equal.
    match goal with
    | |- list_edges _ _ ?l = [] =>
        assert (Z : l = []) by (now apply flat_map_nil); rewrite Z
    end.
    apply Permutation_nil, Permutation_sym, list_edges_perm. }
  split; [exact E |].
  intros layout_sugiyama rand n0 c. unfold make_json. rewrite E. reflexivity.
Qed.

Lemma unknown_department_empty_witness :
  make_subgraph list_set_nodup "CHEM" small_graph = empty_graph.
Proof.
  apply (unknown_department_empty list_set_nodup "CHEM" small_graph
           set_listing_nodup).
  intros name H. simpl in H.
  destruct H as [<- | [<- | [<- | [<- | [<- | []]]]]]; discriminate.
Defined.

(** ** make_json: failure, records and colours *)

(** X12.  make_json raises exactly when the layout has fewer rows than the
    subgraph has vertices (the IndexError of [sugiyama_layout[node[0]]]);
    no other lookup of the function can fail. *)
Theorem make_json_fails_iff {eo : EdgeOrder} (list_set : list nat -> list nat)
  (layout_sugiyama : graph -> list (Q * Q)) (rand : nat -> Z) (n0 : nat)
  (dept_string : string) (c : catalog) (g : graph) :
  make_json list_set layout_sugiyama rand n0 dept_string c g = None <->
  List.length (layout_sugiyama (make_subgraph list_set dept_string g)) <
  vcount (make_subgraph list_set dept_string g).
Proof.
  set (sg := make_subgraph list_set dept_string g). split.
  - intros H.
    destruct (Nat.lt_ge_cases (List.length (layout_sugiyama sg)) (vcount sg))
      as [L | L]; [exact L |].
    destruct (make_json_returns list_set layout_sugiyama rand n0 dept_string
                c g L) as [d [Hd _]].
    congruence.
  - intros L.
    destruct (make_json list_set layout_sugiyama rand n0 dept_string c g)
      as [d |] eqn:H; [| reflexivity].
    exfalso. destruct (make_json_inv _ _ _ _ _ _ _ _ H) as [Hn _].
    fold sg in Hn.
    destruct (nth_error (vs_name sg) (List.length (layout_sugiyama sg)))
      as [name |] eqn:E.
    + destruct (traverse_nth _ _ _ _ _ Hn (enumerate_nth _ _ _ E))
        as [rec [Hrec _]].
      apply node_output_shape in Hrec.
      destruct Hrec as [_ [_ [xy [rgb [X _]]]]].
      assert (B : List.length (layout_sugiyama sg) <
                  List.length (get_sugiyama_layout layout_sugiyama sg))
        by (apply nth_error_Some; congruence).
      unfold get_sugiyama_layout in B. rewrite length_firstn in B. lia.
    + apply nth_error_None in E. unfold vcount in L. lia.
Qed.

Example make_json_short_layout :
  make_json list_set_nodup layout_short rand_mod 0 "ECON" phantom_store
    phantom_graph = None.
Proof. vm_compute. reflexivity. Qed.

Lemma node_output_known (layout : list (Q * Q))
  (colors : list (string * (Z * Z * Z))) (c : catalog) (i : nat)
  (name : string) (rec : odict) (d : course) :
  lookup name c = Some d ->
  node_output layout colors c (i, name) = Some rec ->
  exists xy rgb,
    nth_error layout i = Some xy /\
    lookup (dept_of name) colors = Some rgb /\
    rec = known_record i name xy rgb d.
Proof.
  intros N. unfold node_output, bind. rewrite N.
  destruct (nth_error layout i) as [xy |]; [| discriminate].
  destruct (lookup (dept_of name) colors) as [rgb |]; [| discriminate].
  intros [= <-]. exists xy, rgb. repeat split; reflexivity.
Qed.

(** X13.  The record exported for a node whose code is a key of the store
    carries the title, the description and the prereqs list of the store
    under Title, Description and Requisite, an anchor to the course's url
    under Course Site, and the first four characters of the code under
    Department Code; its position is the row of the layout at its index. *)
Theorem known_node_record {eo : EdgeOrder} (list_set : list nat -> list nat)
  (layout_sugiyama : graph -> list (Q * Q)) (rand : nat -> Z) (n0 : nat)
  (dept_string : string) (c : catalog) (g : graph) (d : data)
  (i : nat) (name : string) (details : course) :
  let sg := make_subgraph list_set dept_string g in
  let colors := fst (department_colors rand n0 (map dept_of (vs_name sg))) in
  make_json list_set layout_sugiyama rand n0 dept_string c g = Some d ->
  nth_error (vs_name sg) i = Some name ->
  lookup name c = Some details ->
  exists xy rgb,
    nth_error (get_sugiyama_layout layout_sugiyama sg) i = Some xy /\
    lookup (dept_of name) colors = Some rgb /\
    nth_error (nodes d) i = Some (known_record i name xy rgb details).
Proof.
  intros sg colors H E N.
  destruct (make_json_inv _ _ _ _ _ _ _ _ H) as [Hn _].
  fold sg in Hn. fold colors in Hn.
  destruct (traverse_nth _ _ _ i (i, name) Hn (enumerate_nth _ _ _ E))
    as [rec [Hrec Hi]].
  destruct (node_output_known _ _ _ _ _ _ _ N Hrec)
    as [xy [rgb [Hx [Hc ->]]]].
  exists xy, rgb. split; [exact Hx |]. split; [exact Hc | exact Hi].
Qed.

Lemma known_node_record_witness :
  exists xy rgb,
    nth_error (nodes phantom_doc) 0 =
      Some (known_record 0 "ECON-301" xy rgb
              (mk "Requisite: ECON 999")).
Proof.
  assert (H : make_json list_set_nodup layout_row rand_mod 0 "ECON"
                phantom_store phantom_graph = Some phantom_doc)
    by (vm_compute; reflexivity).
  destruct (known_node_record list_set_nodup layout_row rand_mod 0 "ECON"
              phantom_store phantom_graph phantom_doc 0 "ECON-301"
              (mk "Requisite: ECON 999") H eq_refl eq_refl)
    as [xy [rgb [_ [_ Hn]]]].
  exists xy, rgb. exact Hn.
Defined.

(** X14.  The edges of the document are the edges of the subgraph, in
    order: the record of index j names its endpoints by their vertex
    indices as source and target, has an empty label, no attributes and
    size 1.0, and is coloured like the node it points to. *)
Theorem edge_record_of_subgraph {eo : EdgeOrder} (list_set : list nat -> list nat)
  (layout_sugiyama : graph -> list (Q * Q)) (rand : nat -> Z) (n0 : nat)
  (dept_string : string) (c : catalog) (g : graph) (d : data)
  (j s t : nat) :
  make_json list_set layout_sugiyama rand n0 dept_string c g = Some d ->
  nth_error (es (make_subgraph list_set dept_string g)) j = Some (s, t) ->
  exists rgb target_node,
    nth_error (edges d) j = Some (edge_record j s t rgb) /\
    nth_error (nodes d) t = Some target_node /\
    lookup "color" target_node = Some (VStr ("rgb" ++ str_rgb rgb)).
Proof.
  intros H E. destruct (make_json_inv _ _ _ _ _ _ _ _ H) as [Hn He].
  set (sg := make_subgraph list_set dept_string g) in *.
  destruct (traverse_nth _ _ _ j (j, (s, t)) He (enumerate_nth _ _ _ E))
    as [e [Hout Hj]].
  unfold edge_output, bind in Hout.
  destruct (nth_error (vs_name sg) t) as [tname |] eqn:T; [| discriminate].
  destruct (lookup (dept_of tname) _) as [rgb |] eqn:R; [| discriminate].
  destruct (List.last _ None) as [n |] eqn:L; [| discriminate].
  apply last_map_Some in L.
  destruct (traverse_all _ _ _ _ Hn L) as [[i name] [_ Hnode]].
  apply node_output_shape in Hnode. destruct Hnode as [Len _].
  injection Hout as <-. rewrite Len in Hj.
  destruct (traverse_nth _ _ _ t (t, tname) Hn (enumerate_nth _ _ _ T))
    as [nt [Hnt Ht]].
  apply node_output_shape in Hnt.
  destruct Hnt as [_ [_ [xy [rgb' [_ [R' [_ [_ [Hcol _]]]]]]]]].
  rewrite R in R'. injection R' as <-.
  exists rgb, nt. split; [exact Hj |]. split; [exact Ht | exact Hcol].
Qed.

Lemma edge_record_of_subgraph_witness :
  exists rgb target_node,
    nth_error (edges phantom_doc) 0 = Some (edge_record 0 1 0 rgb) /\
    nth_error (nodes phantom_doc) 0 = Some target_node /\
    lookup "color" target_node = Some (VStr ("rgb" ++ str_rgb rgb)).
Proof.
  assert (H : make_json list_set_nodup layout_row rand_mod 0 "ECON"
                phantom_store phantom_graph = Some phantom_doc)
    by (vm_compute; reflexivity).
  apply (edge_record_of_subgraph list_set_nodup layout_row rand_mod 0 "ECON"
           phantom_store phantom_graph phantom_doc 0 1 0 H).
  vm_compute. reflexivity.
Defined.

(** *** The colours of the departments *)

Lemma department_colors_snoc (rand : nat -> Z) (n0 : nat) (l : list string)
  (a : string) :
  department_colors rand n0 (l ++ [a]) =
  (dict_set a (drawn rand (snd (department_colors rand n0 l)))
     (fst (department_colors rand n0 l)),
   S (S (S (snd (department_colors rand n0 l))))).
Proof.
  unfold department_colors. rewrite fold_left_app. reflexivity.
Qed.

(** X15.  Building the colour table draws three numbers for every node of
    the subgraph, and the colour a department ends up with is the triple
    drawn at the last node of that department: the draws made at its
    earlier nodes are overwritten. *)
Theorem department_colors_last (rand : nat -> Z) (n0 : nat)
  (l : list string) :
  snd (department_colors rand n0 l) = n0 + 3 * List.length l /\
  forall i d,
    nth_error l i = Some d ->
    (forall j, i < j -> nth_error l j <> Some d) ->
    lookup d (fst (department_colors rand n0 l)) =
      Some (drawn rand (n0 + 3 * i)).
Proof.
  induction l as [| a l [IHn IHc]] using rev_ind.
  - split; [simpl; lia |]. intros [| i] d E; discriminate.
  - rewrite department_colors_snoc. cbn [fst snd]. split.
    + rewrite IHn, length_app. simpl. lia.
    + intros i d E Last. rewrite lookup_dict_set.
      destruct (Nat.lt_ge_cases i (List.length l)) as [Lt | Ge].
      * rewrite nth_error_app1 in E by exact Lt.
        destruct (String.eqb_spec d a) as [-> | Nda].
        -- exfalso. apply (Last (List.length l) Lt).
           rewrite nth_error_app2, Nat.sub_diag by lia. reflexivity.
        -- apply IHc; [exact E |]. intros j Hj Ej.
           apply (Last j Hj). rewrite nth_error_app1; [exact Ej |].
           apply nth_error_Some. congruence.
      * assert (L : i < List.length (l ++ [a]))
          by (apply nth_error_Some; congruence).
        rewrite length_app in L. simpl in L.
        assert (i = List.length l) by lia. subst i.
        rewrite nth_error_app2, Nat.sub_diag in E by lia.
        injection E as <-. rewrite String.eqb_refl, IHn. reflexivity.
Qed.

Lemma department_colors_last_witness :
  lookup "ECON" (fst (department_colors rand_mod 0 ["ECON"; "MATH"; "ECON"]))
  = Some (drawn rand_mod (0 + 3 * 2)).
Proof.
  apply (proj2 (department_colors_last rand_mod 0 ["ECON"; "MATH"; "ECON"])
           2 "ECON" eq_refl).
  intros [| [| [| [| j]]]] H; try lia; discriminate.
Defined.

(** *** The ids of a document are distinct *)

Lemma str_int_inj (a b : Z) : str_int a = str_int b -> a = b.
Proof.
  unfold str_int. intros H. apply DecimalZ.to_int_inj.
  assert (N : forall z, Z.to_int z <> Decimal.Pos Decimal.Nil /\
                        Z.to_int z <> Decimal.Neg Decimal.Nil).
  { intros [| p | p]; simpl; split; try discriminate;
      intros [= E]; now apply DecimalPos.Unsigned.to_uint_nonnil in E. }
  pose proof (NilZero.isi (Z.to_int a) (proj1 (N a)) (proj2 (N a))) as Ia.
  pose proof (NilZero.isi (Z.to_int b) (proj1 (N b)) (proj2 (N b))) as Ib.
  rewrite H in Ia. congruence.
Qed.

Lemma uint_no_comma (u : Decimal.uint) :
  Repr.has_char "," (NilEmpty.string_of_uint u) = false.
Proof. induction u; simpl; assumption || reflexivity. Qed.

Lemma str_int_no_comma (z : Z) : Repr.has_char "," (str_int z) = false.
Proof.
  unfold str_int. destruct (Z.to_int z) as [u | u]; simpl;
    destruct u; simpl; try reflexivity; apply uint_no_comma.
Qed.

Lemma prefix_before_char (a : ascii) (s1 s2 r1 r2 : string) :
  Repr.has_char a s1 = false -> Repr.has_char a s2 = false ->
  s1 ++ String a r1 = s2 ++ String a r2 -> s1 = s2.
Proof.
  revert s2. induction s1 as [| c s1 IH]; intros [| c2 s2]; simpl.
  - reflexivity.
  - intros _ H [= E _]. subst c2. now rewrite Ascii.eqb_refl in H.
  - intros H _ [= E _]. subst c. now rewrite Ascii.eqb_refl in H.
  - intros H1 H2 [= -> E]. apply orb_false_iff in H1, H2. f_equal.
    apply IH; tauto.
Qed.

Lemma str_node_inj (i j : nat) (n m : string) :
  str_node i n = str_node j m -> i = j.
Proof.
  unfold str_node. simpl. intros [= H].
  apply prefix_before_char in H; try apply str_int_no_comma.
  apply str_int_inj in H. lia.
Qed.

Lemma nth_error_ids (l : list odict) (i : nat) :
  nth_error (ids l) i = option_map (lookup "id") (nth_error l i).
Proof. unfold ids. apply nth_error_map. Qed.

(** X16.  Within an exported document no two nodes have the same id, no
    two edges have the same id, and no node has the id of an edge. *)
Theorem document_ids_distinct {eo : EdgeOrder} (list_set : list nat -> list nat)
  (layout_sugiyama : graph -> list (Q * Q)) (rand : nat -> Z) (n0 : nat)
  (dept_string : string) (c : catalog) (g : graph) (d : data) :
  make_json list_set layout_sugiyama rand n0 dept_string c g = Some d ->
  NoDup (ids (nodes d)) /\
  NoDup (ids (edges d)) /\
  forall x, In x (ids (nodes d)) -> ~ In x (ids (edges d)).
Proof.
  intros H.
  assert (Node : forall i x, nth_error (ids (nodes d)) i = Some x ->
                 exists name, x = Some (VStr (str_node i name))).
  { intros i x. rewrite nth_error_ids.
    destruct (nth_error (nodes d) i) as [rec |] eqn:E; [| discriminate].
    intros [= <-].
    destruct (node_id_formula _ _ _ _ _ _ _ _ _ _ H E) as [name [_ Hid]].
    eauto. }
  assert (Edge : forall j x, nth_error (ids (edges d)) j = Some x ->
                 x = Some (VStr (str_int (6 + 2 * Z.of_nat j)))).
  { intros j x. rewrite nth_error_ids.
    destruct (nth_error (edges d) j) as [e |] eqn:E; [| discriminate].
    intros [= <-]. exact (edge_id_formula _ _ _ _ _ _ _ _ _ _ H E). }
  split; [| split].
  - apply NoDup_nth_error. intros i j Li E.
    destruct (nth_error (ids (nodes d)) i) as [x |] eqn:Ei;
      [| apply nth_error_None in Ei; lia].
    symmetry in E.
    destruct (Node i x Ei) as [n Hn]. destruct (Node j x E) as [m Hm].
    assert (S : str_node i n = str_node j m) by congruence.
    now apply str_node_inj in S.
  - apply NoDup_nth_error. intros i j Li E.
    destruct (nth_error (ids (edges d)) i) as [x |] eqn:Ei;
      [| apply nth_error_None in Ei; lia].
    symmetry in E.
    pose proof (Edge i x Ei) as Hi. pose proof (Edge j x E) as Hj.
    assert (S : str_int (6 + 2 * Z.of_nat i) = str_int (6 + 2 * Z.of_nat j))
      by congruence.
    apply str_int_inj in S. lia.
  - intros x Hn He.
    apply In_nth_error in Hn. destruct Hn as [i Hi].
    apply In_nth_error in He. destruct He as [j Hj].
    destruct (Node i x Hi) as [n Hn]. pose proof (Edge j x Hj) as E.
    assert (S : str_node i n = str_int (6 + 2 * Z.of_nat j)) by congruence.
    now apply str_node_not_int in S.
Qed.

Lemma document_ids_distinct_witness :
  NoDup (ids (nodes phantom_doc)) /\
  NoDup (ids (edges phantom_doc)) /\
  forall x, In x (ids (nodes phantom_doc)) -> ~ In x (ids (edges phantom_doc)).
Proof.
  apply (document_ids_distinct list_set_nodup layout_row rand_mod 0 "ECON"
           phantom_store phantom_graph phantom_doc).
  vm_compute. reflexivity.
Defined.

(** ** get_course_description *)

Lemma keys_dict_set {V} (k : string) (v : V) (d : list (string * V)) :
  In k (keys d) -> keys (dict_set k v d) = keys d.
Proof.
  induction d as [| [a w] d IH]; simpl; [intros [] |].
  destruct (String.eqb_spec k a) as [-> | N]; [reflexivity |].
  intros [E | H]; [congruence |]. simpl. now rewrite IH.
Qed.

Lemma dict_set_same {V} (k : string) (v : V) (d : list (string * V)) :
  lookup k d = Some v -> dict_set k v d = d.
Proof.
  induction d as [| [a w] d IH]; simpl; [discriminate |].
  destruct (String.eqb_spec k a) as [-> | N].
  - intros [= ->]. reflexivity.
  - intros H. now rewrite IH.
Qed.

Lemma describe_described (fetch : string -> list string) (e : entry) :
  described (describe fetch e) <> None.
Proof.
  unfold describe. destruct (described e) eqn:E; [congruence |].
  simpl. discriminate.
Qed.

Lemma describe_idem (f f' : string -> list string) (e : entry) :
  describe f' (describe f e) = describe f e.
Proof.
  unfold describe at 1. destruct (described (describe f e)) eqn:E;
    [reflexivity |]. now apply describe_described in E.
Qed.

(** One course: the store afterwards, seen through lookups. *)
Lemma describe_step_lookup (fetch : string -> list string)
  (cs : list (string * entry)) (log : list string) (a k : string) :
  keys (fst (describe_step fetch (cs, log) a)) = keys cs /\
  lookup k (fst (describe_step fetch (cs, log) a)) =
    if String.eqb k a then option_map (describe fetch) (lookup a cs)
    else lookup k cs.
Proof.
  unfold describe_step.
  destruct (lookup a cs) as [e |] eqn:L.
  - destruct (described e) as [x |] eqn:D; simpl.
    + split; [reflexivity |].
      destruct (String.eqb_spec k a) as [-> | N]; [| reflexivity].
      rewrite L. simpl. unfold describe. now rewrite D.
    + split.
      * apply keys_dict_set. eapply lookup_Some_In. eassumption.
      * rewrite lookup_dict_set.
        destruct (String.eqb_spec k a); [| reflexivity].
        unfold describe. rewrite D.
        unfold description_prereqs.
        now rewrite (filter_all _ _ requisite_test_true).
  - simpl. split; [reflexivity |].
    destruct (String.eqb_spec k a) as [-> | N]; [now rewrite L | reflexivity].
Qed.

Lemma describe_fold_lookup (fetch : string -> list string)
  (ks : list string) (cs : list (string * entry)) (log : list string)
  (k : string) :
  keys (fst (fold_left (describe_step fetch) ks (cs, log))) = keys cs /\
  lookup k (fst (fold_left (describe_step fetch) ks (cs, log))) =
    if mem k ks then option_map (describe fetch) (lookup k cs)
    else lookup k cs.
Proof.
  revert cs log. induction ks as [| a ks IH]; intros cs log.
  - split; reflexivity.
  - cbn [fold_left].
    destruct (describe_step fetch (cs, log) a) as [cs1 log1] eqn:S.
    destruct (describe_step_lookup fetch cs log a k) as [K1 L1].
    destruct (describe_step_lookup fetch cs log a a) as [_ La].
    rewrite S in K1, L1, La. cbn [fst] in K1, L1, La.
    destruct (IH cs1 log1) as [K2 L2]. split; [congruence |].
    rewrite L2, L1. unfold mem. cbn [existsb]. fold (mem k ks).
    destruct (String.eqb_spec k a) as [-> | N]; simpl.
    + destruct (mem a ks); [| reflexivity].
      destruct (lookup a cs); simpl; [| reflexivity].
      now rewrite describe_idem.
    + reflexivity.
Qed.

(** The courses of one institution after its loop. *)
Lemma describe_all_lookup (fetch : string -> list string)
  (cs : list (string * entry)) (log : list string) (k : string) :
  keys (fst (fold_left (describe_step fetch) (keys cs) (cs, log))) = keys cs /\
  lookup k (fst (fold_left (describe_step fetch) (keys cs) (cs, log))) =
    option_map (describe fetch) (lookup k cs).
Proof.
  destruct (describe_fold_lookup fetch (keys cs) cs log k) as [K L].
  split; [exact K |]. rewrite L.
  destruct (mem k (keys cs)) eqn:M; [reflexivity |].
  apply mem_false, lookup_None_iff in M. now rewrite M.
Qed.

(** Nothing happens to courses that all have a description. *)
Lemma describe_fold_noop (fetch : string -> list string) (ks : list string)
  (cs : list (string * entry)) (log : list string) :
  (forall k e, lookup k cs = Some e -> described e <> None) ->
  fold_left (describe_step fetch) ks (cs, log) = (cs, log).
Proof.
  intros H. induction ks as [| a ks IH]; [reflexivity |].
  cbn [fold_left]. unfold describe_step at 2.
  destruct (lookup a cs) as [e |] eqn:L; [| exact IH].
  destruct (described e) eqn:D; [exact IH |]. now apply H in L.
Qed.

Lemma institution_step_lookup (fetch : string -> list string)
  (insts : list (string * list (string * entry))) (log : list string)
  (a i : string) :
  keys (fst (institution_step fetch (insts, log) a)) = keys insts /\
  lookup i (fst (institution_step fetch (insts, log) a)) =
    if String.eqb i a
    then option_map (fun cs => fst (fold_left (describe_step fetch) (keys cs)
                                      (cs, log)))
           (lookup a insts)
    else lookup i insts.
Proof.
  unfold institution_step.
  destruct (lookup a insts) as [cs |] eqn:L.
  - destruct (fold_left (describe_step fetch) (keys cs) (cs, log))
      as [cs' log'] eqn:F. cbn [fst]. split.
    + apply keys_dict_set. eapply lookup_Some_In. eassumption.
    + rewrite lookup_dict_set.
      destruct (String.eqb_spec i a); [| reflexivity].
      simpl. now rewrite F.
  - cbn [fst]. split; [reflexivity |].
    destruct (String.eqb_spec i a) as [-> | N]; [now rewrite L | reflexivity].
Qed.

Lemma institution_fold_inv (fetch : string -> list string)
  (insts0 : list (string * list (string * entry))) (ks : list string) :
  forall insts log done,
    seen_or_same fetch insts0 insts done ->
    seen_or_same fetch insts0
      (fst (fold_left (institution_step fetch) ks (insts, log)))
      (done ++ ks).
Proof.
  induction ks as [| a ks IH]; intros insts log done Inv.
  - now rewrite app_nil_r.
  - cbn [fold_left].
    destruct (institution_step fetch (insts, log) a) as [insts1 log1] eqn:S.
    replace (done ++ a :: ks)%list with ((done ++ [a]) ++ ks)%list
      by (rewrite <- app_assoc; reflexivity).
    apply IH. destruct Inv as [K Inv]. split.
    + pose proof (proj1 (institution_step_lookup fetch insts log a a)) as K1.
      rewrite S in K1. cbn [fst] in K1. congruence.
    + intros i cs Hi. destruct (Inv i cs Hi) as [cs' [L [Kc Lc]]].
      pose proof (proj2 (institution_step_lookup fetch insts log a i)) as L1.
      rewrite S in L1. cbn [fst] in L1.
      assert (M : mem i (done ++ [a]) = mem i done || String.eqb i a).
      { unfold mem. rewrite existsb_app. simpl. now rewrite orb_false_r. }
      destruct (String.eqb_spec i a) as [-> | N].
      * rewrite L in L1. simpl in L1.
        eexists. split; [exact L1 |].
        split; [rewrite <- Kc; apply (describe_all_lookup fetch cs' log "") |].
        intros k. rewrite (proj2 (describe_all_lookup fetch cs' log k)), Lc, M.
        rewrite orb_true_r. destruct (mem a done); [| reflexivity].
        destruct (lookup k cs); simpl; [| reflexivity].
        now rewrite describe_idem.
      * exists cs'. split; [congruence |]. split; [exact Kc |].
        intros k. rewrite Lc, M. now rewrite orb_false_r.
Qed.

Lemma get_course_description_fills_inv (fetch : string -> list string)
  (institutions : list (string * list (string * entry))) :
  seen_or_same fetch institutions
    (fst (get_course_description fetch institutions)) (keys institutions).
Proof.
  apply (institution_fold_inv fetch institutions (keys institutions)
           institutions [] []).
  split; [reflexivity |].
  intros i cs H. exists cs. split; [exact H |]. split; reflexivity.
Qed.

(** X17.  get_course_description keeps the institutions and the codes of
    the dictionary, and leaves every course with a description: a course
    that had one is untouched, a course that had none gets the texts of its
    page joined by newlines as description and, as prereqs, the list of all
    the characters of that description. *)
Theorem get_course_description_fills (fetch : string -> list string)
  (institutions : list (string * list (string * entry))) :
  let result := fst (get_course_description fetch institutions) in
  keys result = keys institutions /\
  forall i cs, lookup i institutions = Some cs ->
    exists cs', lookup i result = Some cs' /\ keys cs' = keys cs /\
      forall k e, lookup k cs = Some e ->
        exists e', lookup k cs' = Some e' /\
          listed e' = listed e /\
          match described e with
          | Some x => described e' = Some x
          | None =>
              described e' =
                Some (join_lines (fetch (l_url (listed e))),
                      chars (join_lines (fetch (l_url (listed e)))))
          end.
Proof.
  intros result.
  destruct (get_course_description_fills_inv fetch institutions) as [K Inv].
  fold result in K, Inv. split; [exact K |].
  intros i cs Hi. destruct (Inv i cs Hi) as [cs' [L [Kc Lc]]].
  exists cs'. split; [exact L |]. split; [exact Kc |].
  intros k e Hk. exists (describe fetch e). rewrite Lc. simpl.
  assert (M : mem i (keys institutions) = true)
    by (apply mem_In; eapply lookup_Some_In; eassumption).
  rewrite M, Hk. split; [reflexivity |].
  unfold describe. destruct (described e) eqn:D; simpl; auto.
Qed.

Lemma get_course_description_fills_witness :
  exists cs', lookup "S" (fst (get_course_description fetch_fixed two_courses))
              = Some cs' /\
    exists e', lookup "ECO-150" cs' = Some e' /\
      described e' =
        Some (join_lines (fetch_fixed "u1"),
              chars (join_lines (fetch_fixed "u1"))).
Proof.
  destruct (proj2 (get_course_description_fills fetch_fixed two_courses)
              "S" _ eq_refl) as [cs' [L [_ H]]].
  exists cs'. split; [exact L |].
  destruct (H "ECO-150" _ eq_refl) as [e' [Le [_ D]]].
  exists e'. split; [exact Le | exact D].
Defined.

Lemma institution_fold_noop (fetch : string -> list string)
  (ks : list string) (insts : list (string * list (string * entry)))
  (log : list string) :
  (forall i cs k e, lookup i insts = Some cs -> lookup k cs = Some e ->
                    described e <> None) ->
  fold_left (institution_step fetch) ks (insts, log) = (insts, log).
Proof.
  intros H. induction ks as [| a ks IH]; [reflexivity |].
  cbn [fold_left]. unfold institution_step at 2.
  destruct (lookup a insts) as [cs |] eqn:L; [| exact IH].
  rewrite (describe_fold_noop fetch (keys cs) cs log
             (fun k e => H a cs k e L)).
  now rewrite (dict_set_same _ _ _ L).
Qed.

(** X18.  get_course_description requests nothing for courses that have a
    description, so a second run, whatever the pages then hold, requests
    no url and returns the dictionary of the first run unchanged. *)
Theorem get_course_description_idempotent
  (fetch fetch' : string -> list string)
  (institutions : list (string * list (string * entry))) :
  get_course_description fetch'
    (fst (get_course_description fetch institutions)) =
  (fst (get_course_description fetch institutions), []).
Proof.
  set (result := fst (get_course_description fetch institutions)).
  unfold get_course_description at 1. apply institution_fold_noop.
  intros i cs' k e' Hi Hk.
  destruct (get_course_description_fills_inv fetch institutions) as [K Inv].
  fold result in K, Inv.
  assert (Hin : In i (keys institutions))
    by (rewrite <- K; eapply lookup_Some_In; eassumption).
  destruct (In_keys_lookup _ _ Hin) as [cs Hcs].
  destruct (Inv i cs Hcs) as [cs'' [L [_ Lc]]].
  rewrite Hi in L. injection L as <-.
  rewrite Lc in Hk.
  assert (M : mem i (keys institutions) = true) by now apply mem_In.
  rewrite M in Hk. destruct (lookup k cs) as [e |]; [| discriminate].
  injection Hk as <-. apply describe_described.
Qed.

(** ** test_prereqs on a described store *)

Lemma chars_nil (s : string) : chars s = [] <-> s = "".
Proof. destruct s; simpl; split; congruence. Qed.

(** X19.  On a store whose prereqs fields are those computed by
    get_course_description, test_prereqs prints exactly the courses with a
    non-empty description that are an endpoint of no edge: since the
    requisite test keeps every character, any described course without
    edges is flagged, whether or not its description speaks of
    requisites. *)
Theorem test_prereqs_flags_described (l : list edge) (c : catalog) :
  (forall k d, lookup k c = Some d ->
               prereqs d = description_prereqs (description d)) ->
  forall k,
    In k (map fst (fst (test_prereqs l c))) <->
    In k (keys c) /\
    (exists d, lookup k c = Some d /\ description d <> "") /\
    ~ In k (chain l).
Proof.
  intros F k. unfold test_prereqs. cbn [fst].
  rewrite map_map. cbn [fst]. rewrite map_id, filter_In, reported_iff.
  assert (E : forall d, lookup k c = Some d ->
                        (prereqs d <> [] <-> description d <> "")).
  { intros d H. rewrite (F k d H). unfold description_prereqs.
    rewrite (filter_all _ _ requisite_test_true), chars_nil. tauto. }
  split.
  - intros [Hk [Hn [d [Hd Hp]]]]. split; [exact Hk |].
    split; [| exact Hn]. exists d. split; [exact Hd |]. now apply E.
  - intros [Hk [[d [Hd Hp]] Hn]]. split; [exact Hk |].
    split; [exact Hn |]. exists d. split; [exact Hd |]. now apply E.
Qed.

Lemma test_prereqs_flags_described_witness :
  In "ECON-250" (map fst (fst (test_prereqs [] [("ECON-250", mk "Lab.")]))) <->
  In "ECON-250" (keys [("ECON-250", mk "Lab.")]) /\
  (exists d, lookup "ECON-250" [("ECON-250", mk "Lab.")] = Some d /\
             description d <> "") /\
  ~ In "ECON-250" (chain []).
Proof.
  apply (test_prereqs_flags_described [] [("ECON-250", mk "Lab.")]).
  intros k d. simpl. destruct (String.eqb k "ECON-250"); [| discriminate].
  intros [= <-]. reflexivity.
Defined.

(** ** coursescraper.py: codes, failure and edges *)

Lemma length_emitted {X} (is_dept is_num : string -> bool)
  (code : string -> string -> X) (own : string) (ws : list string) :
  List.length (emitted is_dept is_num code own ws) =
  List.length (filter is_num ws).
Proof.
  induction ws as [| w ws IH] using rev_ind; [reflexivity |].
  rewrite emitted_snoc, filter_app, !length_app, IH. simpl.
  destruct (is_num w); reflexivity.
Qed.

Lemma In_scan_rline {ops : StrOps} (depts : list string) (own : string)
  (ws : list string) (x : string) :
  In x (Amherst.scan_rline depts own ws) ->
  exists d w,
    x = d ++ "-" ++ w /\
    In w ws /\ isnumeric w = true /\ String.length w = 3 /\
    (d = own \/ (In d ws /\ In d depts)).
Proof.
  rewrite amherst_scan_emitted.
  intros H. apply In_emitted in H. destruct H as [n [w [E [N ->]]]].
  exists (cursor_after (fun w => mem w depts) own (firstn (S n) ws)), w.
  unfold numeric3 in N. apply andb_true_iff in N. destruct N as [N1 N2].
  split; [reflexivity |]. split; [eapply nth_error_In; eassumption |].
  split; [exact N1 |]. split; [now apply Nat.eqb_eq |].
  destruct (cursor_after_dept (fun w => mem w depts) own (firstn (S n) ws))
    as [C | [C D]]; [left; exact C | right]. split.
  - rewrite <- (firstn_skipn (S n) ws) at 2. apply in_or_app. left. exact C.
  - now apply mem_In.
Qed.

(** X20.  The Amherst scan emits one code for each word that is numeric
    and three characters long, and nothing else: every code is a
    department, a hyphen and such a word of the line, the department being
    the course's own one or a word of the line that is listed in depts. *)
Theorem amherst_codes {ops : StrOps} (depts : list string) (own : string)
  (ws : list string) :
  List.length (Amherst.scan_rline depts own ws) =
    List.length (filter numeric3 ws) /\
  forall x, In x (Amherst.scan_rline depts own ws) ->
    exists d w,
      x = d ++ "-" ++ w /\
      In w ws /\ isnumeric w = true /\ String.length w = 3 /\
      (d = own \/ (In d ws /\ In d depts)).
Proof.
  split.
  - rewrite amherst_scan_emitted. apply length_emitted.
  - intros x. apply In_scan_rline.
Qed.

Lemma amherst_codes_witness :
  exists d w,
    "MATH-121" = d ++ "-" ++ w /\
    In w ["ECON"; "111"; "and"; "MATH"; "121"; "or"; "7"] /\
    isnumeric w = true /\ String.length w = 3 /\
    (d = "ECON" \/
     (In d ["ECON"; "111"; "and"; "MATH"; "121"; "or"; "7"] /\
      In d ["ECON"; "MATH"])).
Proof.
  apply (proj2 (amherst_codes ["ECON"; "MATH"] "ECON"
                  ["ECON"; "111"; "and"; "MATH"; "121"; "or"; "7"])
           "MATH-121").
  vm_compute. tauto.
Defined.

Lemma key_step_None {ops : StrOps} (depts : list string)
  (cd : list (string * Amherst.details)) :
  fold_left (Amherst.key_step depts) cd None = None.
Proof. induction cd as [| kv cd IH]; [reflexivity | exact IH]. Qed.

(** X21.  The block that builds the dictionary prereqs raises exactly when
    some course with a requisite line has a url with fewer than six
    segments between slashes: courses without a requisite line are skipped
    before their url is looked at. *)
Theorem prereqs_block_fails_iff {ops : StrOps} (depts : list string)
  (cd : list (string * Amherst.details)) :
  Amherst.prereqs_block depts cd = None <->
  exists k det, In (k, det) cd /\ Amherst.rLine det <> [] /\
                nth_error (split_slash (Amherst.a_url det)) 5 = None.
Proof.
  unfold Amherst.prereqs_block. generalize (@nil (string * list string)).
  induction cd as [| [k det] cd IH]; intros acc.
  - simpl. split; [discriminate | intros [? [? [[] _]]]].
  - cbn [fold_left]. unfold Amherst.key_step at 2. cbn [fst snd].
    destruct (Amherst.rLine det) as [| r rest] eqn:R.
    + rewrite IH. split.
      * intros [k' [det' [H1 H2]]]. exists k', det'. split; [now right | exact H2].
      * intros [k' [det' [[[= <- <-] | H1] [H2 H3]]]]; [congruence |].
        exists k', det'. tauto.
    + destruct (nth_error (split_slash (Amherst.a_url det)) 5) as [cur |] eqn:U.
      * rewrite IH. split.
        -- intros [k' [det' [H1 H2]]]. exists k', det'.
           split; [now right | exact H2].
        -- intros [k' [det' [[[= <- <-] | H1] [H2 H3]]]]; [congruence |].
           exists k', det'. tauto.
      * rewrite key_step_None. split; [| reflexivity]. intros _.
        exists k, det. split; [now left |]. rewrite R. split; [discriminate |].
        exact U.
Qed.

Example prereqs_block_amherst :
  Amherst.prereqs_block ["ECON"; "MATH"] amherst_details =
  Some [("ECON-301", ["ECON-111"; "MATH-121"]); ("MUSI-105", [])] /\
  Amherst.prereqs_block ["ECON"]
    [("ECON-301", {| Amherst.a_url := "www.amherst.edu/ECON-301";
                     Amherst.a_depts := []; Amherst.rLine := ["ECON 111"] |})]
  = None.
Proof. split; vm_compute; reflexivity. Qed.

Lemma prereqs_block_origin {ops : StrOps} (depts : list string)
  (cd : list (string * Amherst.details)) :
  forall acc result,
    fold_left (Amherst.key_step depts) cd (Some acc) = Some result ->
    forall k v, lookup k result = Some v ->
      lookup k acc = Some v \/
      exists det r rest cur,
        In (k, det) cd /\ Amherst.rLine det = r :: rest /\
        nth_error (split_slash (Amherst.a_url det)) 5 = Some cur /\
        v = Amherst.scan_rline depts cur (split_words (replace_nbsp r)).
Proof.
  induction cd as [| [k0 det] cd IH]; intros acc result H k v L.
  - simpl in H. injection H as <-. now left.
  - cbn [fold_left] in H. unfold Amherst.key_step at 2 in H.
    cbn [fst snd] in H.
    destruct (Amherst.rLine det) as [| r rest] eqn:R.
    + destruct (IH _ _ H k v L) as [A | [det' [r' [rest' [cur [I X]]]]]];
        [now left | right].
      exists det', r', rest', cur. split; [now right | exact X].
    + destruct (nth_error (split_slash (Amherst.a_url det)) 5)
        as [cur |] eqn:U; [| now rewrite key_step_None in H].
      destruct (IH _ _ H k v L) as [A | [det' [r' [rest' [cur' [I X]]]]]].
      * rewrite lookup_dict_set in A.
        destruct (String.eqb_spec k k0) as [-> | N]; [| now left].
        injection A as <-. right. exists det, r, rest, cur.
        split; [now left |]. split; [exact R |]. split; [exact U | reflexivity].
      * right. exists det', r', rest', cur'. split; [now right | exact X].
Qed.

(** X22.  Every pair of edgesTempList built from the dictionary of the
    block has, as target, a course of courseDetails with a requisite line
    and, as source, a code made of a department, a hyphen and a numeric
    word of three characters. *)
Theorem amherst_edges_origin {ops : StrOps} (depts : list string)
  (cd : list (string * Amherst.details))
  (prereqs_dict : list (string * list string)) :
  Amherst.prereqs_block depts cd = Some prereqs_dict ->
  forall source target, In (source, target) (edgesTempList prereqs_dict) ->
    exists det d w,
      In (target, det) cd /\ Amherst.rLine det <> [] /\
      source = d ++ "-" ++ w /\
      isnumeric w = true /\ String.length w = 3.
Proof.
  intros B source target H. unfold edgesTempList in H.
  apply in_flat_map in H. destruct H as [t [_ H]].
  destruct (lookup t prereqs_dict) as [sources |] eqn:L; [| contradiction].
  apply in_map_iff in H. destruct H as [s [[= <- <-] Hs]].
  destruct (prereqs_block_origin depts cd [] prereqs_dict B t sources L)
    as [A | [det [r [rest [cur [I [R [_ ->]]]]]]]]; [discriminate |].
  destruct (In_scan_rline depts cur (split_words (replace_nbsp r)) s Hs)
    as [d [w [E [_ [N [Len _]]]]]].
  exists det, d, w. split; [exact I |]. rewrite R.
  split; [discriminate |]. split; [exact E |]. split; assumption.
Qed.

Lemma amherst_edges_origin_witness :
  exists det d w,
    In ("ECON-301", det) amherst_details /\ Amherst.rLine det <> [] /\
    "MATH-121" = d ++ "-" ++ w /\
    isnumeric w = true /\ String.length w = 3.
Proof.
  apply (amherst_edges_origin ["ECON"; "MATH"] amherst_details
           [("ECON-301", ["ECON-111"; "MATH-121"]); ("MUSI-105", [])]).
  - vm_compute. reflexivity.
  - vm_compute. tauto.
Defined.

(** X23.  noShow lists exactly the keys of the dictionary that are the
    target of no pair of edgesTempList. *)
Theorem noShow_no_edge (prereqs_dict : list (string * list string))
  (k : string) :
  In k (noShow prereqs_dict) <->
  In k (keys prereqs_dict) /\
  forall source, ~ In (source, k) (edgesTempList prereqs_dict).
Proof.
  unfold noShow, edgesTempList. rewrite filter_In. split.
  - intros [Hk H]. split; [exact Hk |]. intros source Hs.
    apply in_flat_map in Hs. destruct Hs as [t [_ Hs]].
    destruct (lookup t prereqs_dict) as [sources |] eqn:L; [| contradiction].
    apply in_map_iff in Hs. destruct Hs as [s [[= <- <-] Hs]].
    rewrite L in H. destruct sources; [contradiction | discriminate].
  - intros [Hk H]. split; [exact Hk |].
    destruct (In_keys_lookup _ _ Hk) as [sources L]. rewrite L.
    destruct sources as [| s rest]; [reflexivity |].
    exfalso. apply (H s). apply in_flat_map. exists k.
    split; [exact Hk |]. rewrite L. now left.
Qed.

(** ** The size of a document *)

Lemma traverse_length {X Y} (f : X -> option Y) (l : list X) (r : list Y) :
  traverse f l = Some r -> List.length r = List.length l.
Proof.
  revert r. induction l as [| x l IH]; intros r; simpl.
  - intros [= <-]. reflexivity.
  - unfold bind. destruct (f x); [| discriminate].
    destruct (traverse f l) as [ys |]; [| discriminate].
    intros [= <-]. simpl. f_equal. now apply IH.
Qed.

Lemma length_enumerate {X} (l : list X) :
  List.length (enumerate l) = List.length l.
Proof.
  unfold enumerate. rewrite length_combine, length_seq. apply Nat.min_id.
Qed.

Lemma node_output_label (layout : list (Q * Q))
  (colors : list (string * (Z * Z * Z))) (c : catalog) (i : nat)
  (name : string) (rec : odict) :
  node_output layout colors c (i, name) = Some rec ->
  lookup "label" rec = Some (VNode i name).
Proof.
  unfold node_output, bind.
  destruct (nth_error layout i) as [xy |];
    [| destruct (lookup name c); discriminate].
  destruct (lookup (dept_of name) colors) as [rgb |];
    [| destruct (lookup name c); discriminate].
  destruct (lookup name c); intros [= <-]; reflexivity.
Qed.

(** X24.  A document has one node record for every vertex of the subgraph
    and one edge record for every edge, in their order: the label of the
    i-th node is the pair of i and the name of the i-th vertex. *)
Theorem document_size {eo : EdgeOrder} (list_set : list nat -> list nat)
  (layout_sugiyama : graph -> list (Q * Q)) (rand : nat -> Z) (n0 : nat)
  (dept_string : string) (c : catalog) (g : graph) (d : data) :
  make_json list_set layout_sugiyama rand n0 dept_string c g = Some d ->
  List.length (nodes d) = vcount (make_subgraph list_set dept_string g) /\
  List.length (edges d) =
    List.length (es (make_subgraph list_set dept_string g)) /\
  forall i name,
    nth_error (vs_name (make_subgraph list_set dept_string g)) i = Some name ->
    exists rec, nth_error (nodes d) i = Some rec /\
                lookup "label" rec = Some (VNode i name).
Proof.
  intros H. destruct (make_json_inv _ _ _ _ _ _ _ _ H) as [Hn He].
  split; [| split].
  - rewrite (traverse_length _ _ _ Hn). apply length_enumerate.
  - rewrite (traverse_length _ _ _ He). apply length_enumerate.
  - intros i name E.
    destruct (traverse_nth _ _ _ i (i, name) Hn (enumerate_nth _ _ _ E))
      as [rec [Hrec Hi]].
    exists rec. split; [exact Hi |].
    eapply node_output_label. exact Hrec.
Qed.

Lemma document_size_witness :
  List.length (nodes phantom_doc) =
    vcount (make_subgraph list_set_nodup "ECON" phantom_graph) /\
  List.length (edges phantom_doc) =
    List.length (es (make_subgraph list_set_nodup "ECON" phantom_graph)).
Proof.
  destruct (document_size list_set_nodup layout_row rand_mod 0 "ECON"
              phantom_store phantom_graph phantom_doc) as [Hn [He _]].
  - vm_compute. reflexivity.
  - split; [exact Hn | exact He].
Defined.

(** ** coursescraper.py: the code read off a url *)

Lemma split_on_app (sep : ascii -> bool) (b : string) (c : ascii)
  (r : string) :
  sep c = true ->
  split_on sep (b ++ String c r) = (split_on sep b ++ split_on sep r)%list.
Proof.
  intros Hc. induction b as [| a b IH]; simpl.
  - now rewrite Hc.
  - rewrite IH. destruct (sep a); [reflexivity |].
    destruct (split_on sep b) as [| p ps] eqn:E; [| reflexivity].
    now apply split_on_nonempty in E.
Qed.

Lemma no_slash_app (a b : string) :
  no_slash (a ++ b) = no_slash a && no_slash b.
Proof.
  unfold no_slash. induction a as [| c a IH]; [reflexivity |].
  cbn [append all_chars]. rewrite IH. apply andb_assoc.
Qed.

(** X25.  The code read off the url of a course page is the course code:
    for a url that ends in a segment DEPT-NUM-TERM, with no hyphen in DEPT
    and NUM and no slash in the segment, it is DEPT-NUM, whatever precedes
    the last slash. *)
Theorem code_of_url_course_page (base d n term : string) :
  no_dash d = true -> no_dash n = true ->
  no_slash d = true -> no_slash n = true -> no_slash term = true ->
  code_of_url (base ++ "/" ++ d ++ "-" ++ n ++ "-" ++ term) = d ++ "-" ++ n.
Proof.
  intros Dd Dn Sd Sn St. unfold code_of_url, split_slash.
  change (base ++ "/" ++ d ++ "-" ++ n ++ "-" ++ term)
    with (base ++ String "/" (d ++ "-" ++ n ++ "-" ++ term)).
  rewrite split_on_app by reflexivity.
  rewrite (split_on_no_sep (is_char "/") (d ++ "-" ++ n ++ "-" ++ term)).
  - rewrite rev_app_distr. cbn [rev app hd]. unfold split_dash.
    change (d ++ "-" ++ n ++ "-" ++ term)
      with (d ++ String "-" (n ++ String "-" term)).
    rewrite split_on_app_sep by (assumption || reflexivity).
    rewrite split_on_app_sep by (assumption || reflexivity).
    reflexivity.
  - fold (no_slash (d ++ "-" ++ n ++ "-" ++ term)).
    rewrite !no_slash_app, Sd, Sn, St. reflexivity.
Qed.

Lemma code_of_url_course_page_witness :
  code_of_url
    ("www.amherst.edu/academiclife/departments/courses/1516F/ECON" ++ "/" ++
     "ECON" ++ "-" ++ "301" ++ "-" ++ "1516F") = "ECON" ++ "-" ++ "301".
Proof.
  apply (code_of_url_course_page
           "www.amherst.edu/academiclife/departments/courses/1516F/ECON"
           "ECON" "301" "1516F"); reflexivity.
Defined.
